(** * minipilot: the streaming bridge, the conversation turn and the CSV worker

    A shallow embedding of
    - [src/core/RedisRetrievalChain.py]: [RedisRetrievalChain.streamer] and
      [RedisRetrievalChain.__ask_question];
    - [src/plugins/csv/worker.py]: [csv_loader_task].

    External services (the Redis server, the semantic cache, the LLM chain,
    the embedding client, the text splitter, the wall clock) are not code of
    the repository.  Their answers are inputs of the model; their state is an
    explicit store that the embedded functions thread through. *)

From stdpp Require Import gmap strings list fin_maps.
From Stdlib Require Import ZArith QArith Ascii String.

#[local] Open Scope Z_scope.

(** ** Python values that travel through the hand-off queue *)

Module Py.

(** The producer puts text fragments (Python [str]) on the queue; the consumer
    also tests for [None]. *)
Inductive pyval : Type :=
| PyStr (s : string)
| PyNone.

#[global] Instance pyval_eq_dec : EqDecision pyval.
Proof. solve_decision. Defined.

(** Python [a == b] on these values. *)
Definition py_eq (a b : pyval) : bool := bool_decide (a = b).

(** Python [v is None]. *)
Definition is_None (v : pyval) : bool :=
  match v with PyNone => true | PyStr _ => false end.

(** Python [int(x)] on a real number: truncation towards zero. *)
Definition py_int (x : Q) : Z := Z.quot (Qnum x) (Zpos (Qden x)).

(** *** [str] methods used by the code

    A [string] is read as a sequence of characters with code points below
    256. *)

(** [c.isspace()] for a character below 256. *)
Definition is_space (c : ascii) : bool :=
  let n := nat_of_ascii c in
  ((9 <=? n) && (n <=? 13) || (28 <=? n) && (n <=? 32) || (n =? 133) || (n =? 160))%nat.

Fixpoint lstrip (s : string) : string :=
  match s with
  | EmptyString => EmptyString
  | String c s' => if is_space c then lstrip s' else s
  end.

Fixpoint rstrip (s : string) : string :=
  match s with
  | EmptyString => EmptyString
  | String c s' =>
      match rstrip s' with
      | EmptyString => if is_space c then EmptyString else String c EmptyString
      | r => String c r
      end
  end.

(** [s.strip()]. *)
Definition strip (s : string) : string := rstrip (lstrip s).

(** [s.replace(c, '')] for a one-character [c]. *)
Fixpoint remove_char (c : ascii) (s : string) : string :=
  match s with
  | EmptyString => EmptyString
  | String d s' => if Ascii.eqb c d then remove_char c s' else String d (remove_char c s')
  end.

Fixpoint drop_chars (n : nat) (s : string) : string :=
  match n, s with
  | O, _ => s
  | S n', EmptyString => EmptyString
  | S n', String _ s' => drop_chars n' s'
  end.

(** What follows the last occurrence of [sep] in [s], if there is one. *)
Fixpoint after_last (sep s : string) : option string :=
  match s with
  | EmptyString => None
  | String _ s' =>
      match after_last sep s' with
      | Some r => Some r
      | None =>
          if String.prefix sep s then Some (drop_chars (String.length sep) s)
          else None
      end
  end.

(** [s.split(sep)[-1]] for a non-empty [sep] no proper prefix of which is a
    suffix of it (such as ['idx:']): occurrences of [sep] cannot overlap, so
    the last piece is what follows the last occurrence, or all of [s]. *)
Definition split_last (sep s : string) : string :=
  match after_last sep s with
  | Some r => r
  | None => s
  end.

(** [sep.join(pieces)]. *)
Definition join (sep : string) (pieces : list string) : string :=
  String.concat sep pieces.

End Py.

(** ** The streaming bridge: [RedisRetrievalChain.streamer] *)

Module Bridge.
Import Py.

(** Outcome of one [self.queue.get(block=True, timeout=int(MINIPILOT_LLM_TIMEOUT))]:
    a value was available within the timeout, or [queue.Empty] was raised. *)
Inductive pull : Type :=
| Arrived (v : pyval)
| QueueEmpty.

(** The arguments of one call of [self.log]. *)
Record log_call : Type := LogCall {
  log_session : string;
  log_question : string;
  log_answer : string;
  log_ttft_ms : Z;
  log_elapsed_ms : Z
}.

(** The attributes of [self] that [streamer] reads.  [question] is only set by
    [ask]; before that the attribute does not exist. *)
Record chain : Type := Chain {
  session_id : string;
  question : option string
}.

(** What the generator's code can see and change outside its own frame:
    the outcomes still to come on [self.queue] (once they are used up nothing
    arrives any more, so a further [get] times out), the number of
    [time.time()] calls made so far, and the calls of [self.log]. *)
Record world : Type := World {
  channel : list pull;
  time_calls : nat;
  logged : list log_call
}.

(** Where a generator object is suspended. *)
Inductive pc : Type :=
| Created          (* not started *)
| AtYieldResult    (* suspended at [yield result], inside the loop *)
| AtYieldAnswer    (* suspended at [yield answer], before [break] *)
| Closed.          (* returned or raised *)

(** The generator's local variables. *)
Record frame : Type := Frame {
  at_ : pc;
  answer : string;
  start : Q;
  ttft : Q
}.

Inductive exn : Type :=
| AttributeError (name : string)
| TypeError.

(** Result of one [next()] on the generator. *)
Inductive resumed : Type :=
| Yield (s : string)
| StopIteration
| Raise (e : exn).

Definition overload_message : string :=
  "The server is overloaded, retry later. Thanks for your patience".

(** [self.streamer()]: a new generator object; its body does not run before
    the first [next]. *)
Definition streamer : frame :=
  {| at_ := Created; answer := ""; start := 0%Q; ttft := 0%Q |}.

Definition close (f : frame) : frame :=
  {| at_ := Closed; answer := answer f; start := start f; ttft := ttft f |}.

(** What the code takes from outside: [STOP_ITEM], imported from
    StreamingStdOutCallbackHandlerYield, and the wall clock, [time_time k]
    being the reading of the [k]-th call of [time.time()], in seconds. *)
Class Env : Type := {
  STOP_ITEM : pyval;
  time_time : nat -> Q
}.

Section Streamer.

Context {env : Env}.

Definition tick (w : world) : Q * world :=
  (time_time (time_calls w),
   {| channel := channel w; time_calls := S (time_calls w); logged := logged w |}).

(** [self.queue.get(block=True, timeout=...)]. *)
Definition queue_get (w : world) : pull * world :=
  match channel w with
  | [] => (QueueEmpty, w)
  | p :: rest =>
      (p, {| channel := rest; time_calls := time_calls w; logged := logged w |})
  end.

(** [self.log(self.session_id, self.question, answer, int(ttft * 1000),
    int((time.time() - start) * 1000))]; the arguments are evaluated from left
    to right, [self.question] before [time.time()]. *)
Definition log (self : chain) (f : frame) (w : world) : exn + world :=
  match question self with
  | None => inl (AttributeError "question")
  | Some qn =>
      let '(now, w1) := tick w in
      inr {| channel := channel w1;
             time_calls := time_calls w1;
             logged := logged w1 ++
               [ {| log_session := session_id self;
                    log_question := qn;
                    log_answer := answer f;
                    log_ttft_ms := py_int (ttft f * 1000);
                    log_elapsed_ms := py_int ((now - start f) * 1000) |} ] |}
  end.

(** One iteration of [while True:], up to the next [yield], [break] or
    exception. *)
Definition loop_body (self : chain) (f : frame) (w : world)
  : resumed * frame * world :=
  match queue_get w with
  | (QueueEmpty, w0) =>
      let f1 := {| at_ := AtYieldAnswer; answer := overload_message;
                   start := start f; ttft := ttft f |} in
      match log self f1 w0 with
      | inl e => (Raise e, close f1, w0)
      | inr w1 => (Yield (answer f1), f1, w1)
      end
  | (Arrived result, w0) =>
      let '(ttft1, w1) :=
        if Qeq_bool (ttft f) 0
        then let '(now, w1) := tick w0 in ((now - start f)%Q, w1)
        else (ttft f, w0) in
      let f1 := {| at_ := at_ f; answer := answer f;
                   start := start f; ttft := ttft1 |} in
      if py_eq result STOP_ITEM || is_None result then
        match log self f1 w1 with
        | inl e => (Raise e, close f1, w1)
        | inr w2 => (StopIteration, close f1, w2)
        end
      else
        match result with
        | PyStr s =>
            (Yield s,
             {| at_ := AtYieldResult; answer := answer f1 +:+ s;
                start := start f1; ttft := ttft f1 |},
             w1)
        | PyNone => (Raise TypeError, close f1, w1)
        end
  end.

(** [next(gen)] for [gen = self.streamer()]. *)
Definition next (self : chain) (f : frame) (w : world)
  : resumed * frame * world :=
  match at_ f with
  | Created =>
      let '(now, w1) := tick w in
      loop_body self
        {| at_ := Created; answer := ""; start := now; ttft := 0%Q |} w1
  | AtYieldResult => loop_body self f w
  | AtYieldAnswer => (StopIteration, close f, w)
  | Closed => (StopIteration, f, w)
  end.

(** How a [for chunk in self.streamer()] loop of the caller ends. *)
Inductive ending : Type :=
| Exhausted
| Raised (e : exn).

(** Draining the generator: [next] until it stops, collecting what it yields.
    [None] when [fuel] calls of [next] were not enough. *)
Fixpoint drain (fuel : nat) (self : chain) (f : frame) (w : world)
  : option (list string * ending * frame * world) :=
  match fuel with
  | O => None
  | S fuel' =>
      match next self f w with
      | (Yield s, f1, w1) =>
          match drain fuel' self f1 w1 with
          | Some (ys, e, f2, w2) => Some (s :: ys, e, f2, w2)
          | None => None
          end
      | (StopIteration, f1, w1) => Some ([], Exhausted, f1, w1)
      | (Raise e, f1, w1) => Some ([], Raised e, f1, w1)
      end
  end.

End Streamer.

(** *** Vocabulary of the statements about the bridge *)

(** The text accumulated by [answer += result] over the fragments [frags]. *)
Definition text_of (frags : list string) : string :=
  fold_left String.append frags "".

(** The world when the values [vs] are about to arrive in time, followed by
    the outcomes [tail]. *)
Definition incoming (vs : list pyval) (tail : list pull) (k : nat)
    (l : list log_call) : world :=
  {| channel := map Arrived vs ++ tail; time_calls := k; logged := l |}.

(** One more [self.log] call happened, and it recorded [a] as the answer to
    question [qn] of this session. *)
Definition logs_answer (self : chain) (qn a : string)
    (before after : list log_call) : Prop :=
  exists e, after = before ++ [e] /\ log_answer e = a /\
            log_question e = qn /\ log_session e = session_id self.

(** [queue.get] raises [queue.Empty]: the next outcome is a timeout, or
    nothing is left to arrive. *)
Definition times_out (tail : list pull) : Prop :=
  match tail with
  | [] | QueueEmpty :: _ => True
  | Arrived _ :: _ => False
  end.

End Bridge.

(** ** One conversation turn: [RedisRetrievalChain.__ask_question] *)

Module Orchestrator.
Import Py.

(** One value of the [references] dictionary. *)
Record reference : Type := Reference {
  title : string;
  genre : string;
  country : string;
  revenue : string;
  score : string;
  date_x : string
}.

(** A [BaseMessage] as the history keeps it. *)
Record message : Type := Message {
  content : string;
  type : string;
  additional_kwargs : gmap string reference
}.

(** [doc.metadata] of a retrieved source document. *)
Record document : Type := Document {
  md_id : string;
  md_names : string;
  md_genre : string;
  md_country : string;
  md_revenue : string;
  md_score : string;
  md_date_x : string
}.

(** The dictionary returned by [chatbot.invoke]. *)
Record chain_result : Type := ChainResult {
  r_question : string;
  r_answer : string;
  r_generated_question : string;
  r_source_documents : list document
}.

(** One element of what [llmcache.check] returns; the ['metadata'] key may be
    absent. *)
Record hit : Type := Hit {
  hit_id : string;
  hit_response : string;
  hit_metadata : option (gmap string reference)
}.

(** The arguments of one [llmcache.store] call. *)
Record cache_entry : Type := CacheEntry {
  prompt : string;
  response : string;
  metadata : gmap string reference
}.

(** How [chatbot.invoke] ends; [tokens] is what the streaming callbacks put
    on the queue while it ran.  It is the one call of the [try] block that
    the model lets raise. *)
Inductive invoke_outcome : Type :=
| Returns (tokens : list pyval) (result : chain_result)
| RaisesOpenAIError (tokens : list pyval) (e : string)
| RaisesOther (tokens : list pyval) (e : string).

(** The state outside the thread that runs a turn. *)
Record state : Type := State {
  redis_lists : gmap string (list message); (* Redis lists, head first *)
  cache : list cache_entry;                 (* semantic cache, oldest first *)
  popularity : gmap string Z;               (* score of each cache item *)
  queue : list pyval;                       (* [callback_fn.q], oldest first *)
  llm_calls : list string;                  (* questions given to [chatbot.invoke] *)
  warnings : list string                    (* [logging.warning] *)
}.

(** Configuration and collaborators that are not code of this file. *)
Class Services : Type := {
  MINIPILOT_CACHE_ENABLED : bool;
  MINIPILOT_HISTORY_LENGTH : Z;
  (** the hits of the similarity search, best first *)
  llmcache_check : list cache_entry -> string -> list hit;
  (** the conversational retrieval chain, given the question and the history *)
  chatbot_invoke : string -> list message -> invoke_outcome;
  (** what [callback_fn.notify] does to the queue *)
  notify : string -> list pyval -> list pyval
}.

(** How the thread's function ends. *)
Inductive returned : Type :=
| Return (result : option chain_result)
| Propagate (e : string).

(** *** State passing *)

Definition M (A : Type) : Type := state -> A * state.

Definition ret {A : Type} (a : A) : M A := fun st => (a, st).

Definition bind {A B : Type} (m : M A) (k : A -> M B) : M B :=
  fun st => let '(a, st1) := m st in k a st1.

#[local] Notation "x <- m ;; k" := (bind m (fun x => k))
  (at level 100, m at next level, right associativity).
#[local] Notation "m ;; k" := (bind m (fun _ => k))
  (at level 100, right associativity).

Definition set_redis_lists (r : gmap string (list message)) (st : state) : state :=
  {| redis_lists := r; cache := cache st; popularity := popularity st;
     queue := queue st; llm_calls := llm_calls st; warnings := warnings st |}.

(** *** Redis lists *)

Definition lrange_all (key : string) (st : state) : list message :=
  default [] (redis_lists st !! key).

(** [redis_client.llen(key)]. *)
Definition llen (key : string) : M Z :=
  fun st => (Z.of_nat (List.length (lrange_all key st)), st).

(** [redis_client.lpush(key, m)]. *)
Definition lpush (key : string) (m : message) : M unit :=
  fun st => (tt, set_redis_lists (<[key := m :: lrange_all key st]> (redis_lists st)) st).

(** [redis_client.rpop(key, count)]: removes up to [count] elements from the
    tail; a list that becomes empty is deleted. *)
Definition rpop (key : string) (count : Z) : M unit :=
  fun st =>
    let l := lrange_all key st in
    let kept := take (Z.to_nat (Z.of_nat (List.length l) - count)) l in
    (tt, set_redis_lists
           (match kept with
            | [] => delete key (redis_lists st)
            | _ => <[key := kept]> (redis_lists st)
            end) st).

(** [redis_client.delete(key)]. *)
Definition del (key : string) : M unit :=
  fun st => (tt, set_redis_lists (delete key (redis_lists st)) st).

(** *** [RedisChatMessageHistory] with [key_prefix='minipilot:history:'] *)

Definition history_key (session_id : string) : string :=
  "minipilot:history:" +:+ session_id.

(** [redis_history.messages]: oldest first. *)
Definition messages (session_id : string) (st : state) : list message :=
  rev (lrange_all (history_key session_id) st).

Definition add_message (session_id : string) (m : message) : M unit :=
  lpush (history_key session_id) m.

Definition add_user_message (session_id : string) (text : string) : M unit :=
  add_message session_id
    {| content := text; type := "human"; additional_kwargs := ∅ |}.

Definition clear (session_id : string) : M unit :=
  del (history_key session_id).

(** *** Queue, cache, log *)

(** [callback_fn.q.put(v)]. *)
Definition q_put (v : pyval) : M unit :=
  fun st =>
    (tt, {| redis_lists := redis_lists st; cache := cache st;
            popularity := popularity st; queue := queue st ++ [v];
            llm_calls := llm_calls st; warnings := warnings st |}).

(** [self.llmcache.store(prompt=p, response=r, metadata=md)]. *)
Definition llmcache_store (p r : string) (md : gmap string reference) : M unit :=
  fun st =>
    (tt, {| redis_lists := redis_lists st;
            cache := cache st ++ [ {| prompt := p; response := r; metadata := md |} ];
            popularity := popularity st; queue := queue st;
            llm_calls := llm_calls st; warnings := warnings st |}).

(** The popularity score of a cache item; an item never rated has score 0. *)
Definition popularity_of (id : string) (st : state) : Z :=
  default 0 (popularity st !! id).

(** Modelled from the spec: [Core.rate_cache_item] (src/core/Core.py) is
    missing.  The spec: on a cache hit the entry's "popularity score is
    incremented", "the cache entry's popularity counter strictly increases by
    one". *)
Definition rate_cache_item (id : string) : M unit :=
  fun st =>
    (tt, {| redis_lists := redis_lists st; cache := cache st;
            popularity := <[id := popularity_of id st + 1]> (popularity st);
            queue := queue st; llm_calls := llm_calls st;
            warnings := warnings st |}).

(** [logging.warning(msg)]. *)
Definition logging_warning (msg : string) : M unit :=
  fun st =>
    (tt, {| redis_lists := redis_lists st; cache := cache st;
            popularity := popularity st; queue := queue st;
            llm_calls := llm_calls st; warnings := warnings st ++ [msg] |}).

Section Turn.

Context {env : Bridge.Env} {svc : Services}.

(** [callback_fn.notify(msg)]. *)
Definition callback_notify (msg : string) : M unit :=
  fun st =>
    (tt, {| redis_lists := redis_lists st; cache := cache st;
            popularity := popularity st; queue := notify msg (queue st);
            llm_calls := llm_calls st; warnings := warnings st |}).

(** [chatbot.invoke({"question": q, "chat_history": redis_history})]: the
    call is recorded, and the tokens streamed meanwhile are on the queue. *)
Definition invoke (session_id q : string) : M invoke_outcome :=
  fun st =>
    let out := chatbot_invoke q (messages session_id st) in
    let tokens :=
      match out with
      | Returns ts _ | RaisesOpenAIError ts _ | RaisesOther ts _ => ts
      end in
    (out, {| redis_lists := redis_lists st; cache := cache st;
             popularity := popularity st; queue := queue st ++ tokens;
             llm_calls := llm_calls st ++ [q]; warnings := warnings st |}).

(** The body of [for doc in result['source_documents']]. *)
Definition add_reference (references : gmap string reference) (doc : document)
  : gmap string reference :=
  <[ split_last "idx:" (md_id doc) :=
       {| title := remove_char "010"%char (strip (md_names doc));
          genre := md_genre doc;
          country := md_country doc;
          revenue := md_revenue doc;
          score := md_score doc;
          date_x := md_date_x doc |} ]> references.

Definition collect_references (docs : list document) : gmap string reference :=
  fold_left add_reference docs ∅.

(** The cache-hit branch, [cached] being non-empty with first element [top]. *)
Definition cache_hit (session_id q : string) (top : hit) : M returned :=
  q_put (PyStr (hit_response top)) ;;
  q_put Bridge.STOP_ITEM ;;
  rate_cache_item (hit_id top) ;;
  let metadata := match hit_metadata top with Some md => md | None => ∅ end in
  add_user_message session_id q ;;
  add_message session_id
    {| content := hit_response top; type := "ai"; additional_kwargs := metadata |} ;;
  ret (Return None).

(** "limit the history length to MINIPILOT_HISTORY_LENGTH": the [llen] and
    the conditional [rpop]. *)
Definition trim_history (session_id : string) : M unit :=
  let key := history_key session_id in
  history_length <- llen key ;;
  if MINIPILOT_HISTORY_LENGTH <? history_length
  then rpop key (history_length - MINIPILOT_HISTORY_LENGTH)
  else ret tt.

(** From [streaming_llm = ChatOpenAI(...)] to the end of the function. *)
Definition full_path (session_id q : string) : M returned :=
  trim_history session_id ;;
  out <- invoke session_id q ;;
  match out with
  | Returns _ result =>
      let references := collect_references (r_source_documents result) in
      add_user_message session_id (r_question result) ;;
      add_message session_id
        {| content := r_answer result; type := "ai";
           additional_kwargs := references |} ;;
      (if negb (size references =? 0)%nat && MINIPILOT_CACHE_ENABLED
       then llmcache_store (r_generated_question result) (r_answer result) references
       else ret tt) ;;
      ret (Return (Some result))
  | RaisesOpenAIError _ e =>
      callback_notify "This conversation is too long, started a new one" ;;
      logging_warning ("OpenAIError: " +:+ e) ;;
      clear session_id ;;
      ret (Return None)
  | RaisesOther _ e => ret (Propagate e)
  end.

(** [self.__ask_question(q, callback_fn)] for [self.session_id = session_id]. *)
Definition ask_question (session_id q : string) : M returned :=
  fun st =>
    match
      (if MINIPILOT_CACHE_ENABLED then llmcache_check (cache st) q else [])
    with
    | top :: _ => cache_hit session_id q top st
    | [] => full_path session_id q st
    end.

(** [self.ask(question)]: the question is remembered on [self], and a thread
    is started that runs the turn; the thread is returned as the state
    transformer it is. *)
Definition ask (self : Bridge.chain) (question : string)
  : Bridge.chain * M returned :=
  ({| Bridge.session_id := Bridge.session_id self;
      Bridge.question := Some question |},
   ask_question (Bridge.session_id self) question).

(** The turn does not take the cache-hit branch: caching is off, or the
    similarity search finds nothing. *)
Definition cache_miss (q : string) (st : state) : Prop :=
  (if MINIPILOT_CACHE_ENABLED then llmcache_check (cache st) q else []) = [].

(** How the chain ends on the full path: it is invoked after the history was
    trimmed. *)
Definition chain_outcome (session_id q : string) (st : state) : invoke_outcome :=
  chatbot_invoke q (messages session_id (snd (trim_history session_id st))).

End Turn.

(** *** Vocabulary of the statements about a turn *)

Definition human_message (text : string) : message :=
  {| content := text; type := "human"; additional_kwargs := ∅ |}.

Definition ai_message (text : string) (kwargs : gmap string reference) : message :=
  {| content := text; type := "ai"; additional_kwargs := kwargs |}.

(** The history of the session, most recent message first. *)
Definition stored (session_id : string) (st : state) : list message :=
  lrange_all (history_key session_id) st.

End Orchestrator.

(** ** The ingestion worker: [csv_loader_task] *)

Module Worker.
Import Py.

(** A naive [datetime], as [datetime.now()] returns it. *)
Record datetime : Type := Datetime {
  year : Z;
  month : Z;
  day : Z;
  hour : Z;
  minute : Z;
  second : Z;
  microsecond : Z
}.

(** The ranges of the fields of a [datetime] object. *)
Definition in_range (d : datetime) : Prop :=
  1 <= year d <= 9999 /\ 1 <= month d <= 12 /\ 1 <= day d <= 31 /\
  0 <= hour d <= 23 /\ 0 <= minute d <= 59 /\ 0 <= second d <= 59 /\
  0 <= microsecond d <= 999999.

Definition digit (d : Z) : ascii := ascii_of_N (Z.to_N (48 + d)).

(** A number below 100 on two digits, as [%m], [%d], [%H], [%M], [%S] print. *)
Definition pad2 (n : Z) : string :=
  String (digit (n / 10)) (String (digit (n mod 10)) EmptyString).

(** A number below 10000 on four digits, as [%Y] prints the year. *)
Definition pad4 (n : Z) : string := pad2 (n / 100) +:+ pad2 (n mod 100).

(** [d.strftime('%Y%m%d_%H%M%S')]. *)
Definition strftime (d : datetime) : string :=
  pad4 (year d) +:+ pad2 (month d) +:+ pad2 (day d) +:+ "_" +:+
  pad2 (hour d) +:+ pad2 (minute d) +:+ pad2 (second d).

(** What the worker calls and this file does not define:
    [get_filename_without_extension] of src/common/utils.py and the
    [split_text] of the [RecursiveCharacterTextSplitter]. *)
Class Externals : Type := {
  get_filename_without_extension : string -> string;
  split_text : string -> list string
}.

(** The embedding client. *)
Inductive embeddings : Type :=
| OpenAIEmbeddings (model : string).

(** What one run meets: the clock, whether building the embedding client
    raises (and the exception), whether the alias [minipilot_rag_alias]
    exists, and the rows [csv.DictReader] reads from the file. *)
Record run : Type := Run {
  now : datetime;
  embeddings_error : option string;
  alias_exists : bool;
  rows : list (list (string * string))
}.

(** What a run does, in order. *)
Inductive effect : Type :=
| LoggedError (msg : string)                 (* [logging.error] *)
| LoggedWarning (msg : string)               (* [logging.warning] *)
| SplitText (text : string)                  (* [doc_splitter.split_text] *)
| FromTexts (texts : list string) (embedding : embeddings) (index_name : string).
                                             (* [Redis.from_texts] *)

Inductive exn : Type :=
| UnboundLocalError (name : string).

Inductive ending : Type :=
| Completed
| Raised (e : exn).

Definition newline : string := String "010"%char EmptyString.

(** ['\n'.join([f"{key}: {value}" for key, value in row.items()])]. *)
Definition row_str (row : list (string * string)) : string :=
  join newline (map (fun kv => fst kv +:+ ": " +:+ snd kv) row).

Section Task.

Context {ext : Externals}.

Definition index_name (filename : string) (t : datetime) : string :=
  "minipilot_rag_" +:+ get_filename_without_extension filename +:+ "_" +:+
  strftime t +:+ "_idx".

(** The loop [for row in csvReader]; [embedding_model] is [None] when the
    local variable was never bound. *)
Fixpoint ingest (name : string) (embedding_model : option embeddings)
    (rs : list (list (string * string))) : list effect * ending :=
  match rs with
  | [] => ([], Completed)
  | row :: rest =>
      let text := row_str row in
      let splits := split_text text in
      if (0 <? List.length splits)%nat then
        match embedding_model with
        | None => ([SplitText text], Raised (UnboundLocalError "embedding_model"))
        | Some em =>
            let '(effects, e) := ingest name embedding_model rest in
            (SplitText text :: FromTexts splits em name :: effects, e)
        end
      else
        let '(effects, e) := ingest name embedding_model rest in
        (SplitText text :: effects, e)
  end.

Definition csv_loader_task (filename : string) (r : run) : list effect * ending :=
  let name := index_name filename (now r) in
  let '(embedding_model, effects1) :=
    match embeddings_error r with
    | None => (Some (OpenAIEmbeddings "text-embedding-ada-002"), [])
    | Some e => (None, [LoggedError e])
    end in
  let effects2 :=
    if alias_exists r then []
    else [LoggedWarning
            "No alias exists for semantic search. Associate the alias to the desired index"] in
  let '(effects3, e) := ingest name embedding_model (rows r) in
  (effects1 ++ effects2 ++ effects3, e).

End Task.

(** *** Vocabulary of the statements about the worker *)

Definition is_split (e : effect) : bool :=
  match e with SplitText _ => true | _ => false end.

Definition is_write (e : effect) : bool :=
  match e with FromTexts _ _ _ => true | _ => false end.

(** The rows of the file that were serialised and given to the splitter. *)
Definition rows_processed (effects : list effect) : nat :=
  List.length (filter (fun e => is_split e = true) effects).

(** The writes to the vector index. *)
Definition index_writes (effects : list effect) : nat :=
  List.length (filter (fun e => is_write e = true) effects).

End Worker.

(** ** Concrete collaborators and inputs, for the examples below *)

Module Examples.
Import Py.

(** A sentinel string and a clock that advances one second per reading. *)
Definition env : Bridge.Env :=
  {| Bridge.STOP_ITEM := PyStr "[END]";
     Bridge.time_time := fun k => inject_Z (Z.of_nat k) |}.

Definition self : Bridge.chain :=
  {| Bridge.session_id := "s1"; Bridge.question := Some "Which film?" |}.

Definition doc1 : Orchestrator.document :=
  {| Orchestrator.md_id := "minipilot_rag_movies_idx:42";
     Orchestrator.md_names := " Avatar ";
     Orchestrator.md_genre := "Action";
     Orchestrator.md_country := "US";
     Orchestrator.md_revenue := "2923706026";
     Orchestrator.md_score := "78";
     Orchestrator.md_date_x := "1260489600" |}.

(** The same document retrieved again under another index, with another
    title; and another document. *)
Definition doc1_again : Orchestrator.document :=
  {| Orchestrator.md_id := "minipilot_rag_films_idx:42";
     Orchestrator.md_names := "Avatar (2009)";
     Orchestrator.md_genre := "Action";
     Orchestrator.md_country := "US";
     Orchestrator.md_revenue := "2923706026";
     Orchestrator.md_score := "78";
     Orchestrator.md_date_x := "1260489600" |}.

Definition doc2 : Orchestrator.document :=
  {| Orchestrator.md_id := "minipilot_rag_movies_idx:43";
     Orchestrator.md_names := "Titanic";
     Orchestrator.md_genre := "Drama";
     Orchestrator.md_country := "US";
     Orchestrator.md_revenue := "2264162353";
     Orchestrator.md_score := "79";
     Orchestrator.md_date_x := "882489600" |}.

Definition a_result : Orchestrator.chain_result :=
  {| Orchestrator.r_question := "Which film?";
     Orchestrator.r_answer := "Avatar.";
     Orchestrator.r_generated_question := "Which film made the most money?";
     Orchestrator.r_source_documents := [doc1] |}.

Definition a_hit : Orchestrator.hit :=
  {| Orchestrator.hit_id := "llmcache:7";
     Orchestrator.hit_response := "Avatar.";
     Orchestrator.hit_metadata := None |}.

(** Services with [MINIPILOT_HISTORY_LENGTH = 4], a cache that answers
    [hits] and a chain that ends as [out]; [notify] puts the message and the
    sentinel on the queue. *)
Definition services (enabled : bool) (hits : list Orchestrator.hit)
    (out : Orchestrator.invoke_outcome) : Orchestrator.Services :=
  {| Orchestrator.MINIPILOT_CACHE_ENABLED := enabled;
     Orchestrator.MINIPILOT_HISTORY_LENGTH := 4;
     Orchestrator.llmcache_check := fun _ _ => hits;
     Orchestrator.chatbot_invoke := fun _ _ => out;
     Orchestrator.notify := fun msg q => q ++ [PyStr msg; PyStr "[END]"] |}.

Definition streamed : list pyval := [PyStr "Ava"; PyStr "tar."; PyStr "[END]"].

(** Caching on and a hit; caching on and a miss; caching off; the provider
    refuses the request. *)
Definition svc_hit : Orchestrator.Services :=
  services true [a_hit] (Orchestrator.Returns streamed a_result).

Definition svc_miss : Orchestrator.Services :=
  services true [] (Orchestrator.Returns streamed a_result).

Definition svc_off : Orchestrator.Services :=
  services false [] (Orchestrator.Returns streamed a_result).

Definition svc_error : Orchestrator.Services :=
  services true [] (Orchestrator.RaisesOpenAIError [] "context_length_exceeded").

(** A chain that fails with some other exception after one token. *)
Definition svc_broken : Orchestrator.Services :=
  services true [] (Orchestrator.RaisesOther [PyStr "Ava"] "ConnectionError").

Definition turn (n : string) : list Orchestrator.message :=
  [ Orchestrator.ai_message ("answer " +:+ n) ∅;
    Orchestrator.human_message ("question " +:+ n) ].

(** A session with five stored turns, ten messages, the most recent first. *)
Definition five_turns : Orchestrator.state :=
  {| Orchestrator.redis_lists :=
       {[ "minipilot:history:s1" := turn "5" ++ turn "4" ++ turn "3" ++ turn "2" ++ turn "1" ]};
     Orchestrator.cache := [];
     Orchestrator.popularity := ∅;
     Orchestrator.queue := [];
     Orchestrator.llm_calls := [];
     Orchestrator.warnings := [] |}.

Fixpoint has_dot (s : string) : bool :=
  match s with
  | EmptyString => false
  | String c s' => Ascii.eqb c "." || has_dot s'
  end.

(** The text before the last dot of a file name. *)
Fixpoint stem (s : string) : string :=
  match s with
  | EmptyString => EmptyString
  | String c s' =>
      if Ascii.eqb c "." && negb (has_dot s') then EmptyString
      else String c (stem s')
  end.

(** A splitter that keeps a non-empty text as one chunk. *)
Definition ext : Worker.Externals :=
  {| Worker.get_filename_without_extension := stem;
     Worker.split_text := fun text =>
       match text with EmptyString => [] | _ => [text] end |}.

Definition at_microsecond (us : Z) : Worker.datetime :=
  {| Worker.year := 2024; Worker.month := 3; Worker.day := 7;
     Worker.hour := 9; Worker.minute := 5; Worker.second := 0;
     Worker.microsecond := us |}.

(** A run in which building the embedding client fails, over a file of one
    row. *)
Definition no_api_key : Worker.run :=
  {| Worker.now := at_microsecond 0;
     Worker.embeddings_error := Some "Did not find openai_api_key";
     Worker.alias_exists := true;
     Worker.rows := [ [("names", "Avatar"); ("genre", "Action")] ] |}.


End Examples.

(** ** Further vocabulary: reading a queue, sessions, texts, runs *)

Module Text.
Import Py.

(** [sep in s], for a non-empty [sep]. *)
Fixpoint contains (sep s : string) : bool :=
  match s with
  | EmptyString => false
  | String _ s' => String.prefix sep s || contains sep s'
  end.

Fixpoint has_char (c : ascii) (s : string) : bool :=
  match s with
  | EmptyString => false
  | String d s' => Ascii.eqb c d || has_char c s'
  end.

Definition starts_with_space (s : string) : bool :=
  match s with
  | EmptyString => false
  | String c _ => is_space c
  end.

Fixpoint ends_with_space (s : string) : bool :=
  match s with
  | EmptyString => false
  | String c s' =>
      match s' with
      | EmptyString => is_space c
      | String _ _ => ends_with_space s'
      end
  end.

End Text.

Module Channel.
Import Py Bridge.

Section Reading.

Context {env : Env}.

(** The test that ends the loop: [result == STOP_ITEM or result is None]. *)
Definition stops (v : pyval) : bool := py_eq v STOP_ITEM || is_None v.

(** The fragments at the head of the outcomes [c], up to the first outcome
    that is a timeout or a value that ends the loop. *)
Fixpoint fragments_before_stop (c : list pull) : list string :=
  match c with
  | Arrived (PyStr s) :: rest =>
      if stops (PyStr s) then [] else s :: fragments_before_stop rest
  | _ => []
  end.

(** The outcomes from that first outcome on. *)
Fixpoint from_stop (c : list pull) : list pull :=
  match c with
  | Arrived (PyStr s) :: rest => if stops (PyStr s) then c else from_stop rest
  | _ => c
  end.

End Reading.

End Channel.

Module Session.
Import Py Orchestrator.

(** [self.reset_history()]: a [RedisChatMessageHistory] of the session, and
    [clear()] on it. *)
Definition reset_history (session_id : string) : M unit := clear session_id.

(** The key and the value that the loop over [result['source_documents']]
    sets for [doc]. *)
Definition reference_key (doc : document) : string :=
  split_last "idx:" (md_id doc).

Definition reference_of (doc : document) : reference :=
  {| title := remove_char "010"%char (strip (md_names doc));
     genre := md_genre doc;
     country := md_country doc;
     revenue := md_revenue doc;
     score := md_score doc;
     date_x := md_date_x doc |}.

Section Turns.

Context {env : Bridge.Env} {svc : Services}.

(** The questions [qs] asked one after the other in one session, each turn
    running to its end before the next one starts. *)
Fixpoint turns (session_id : string) (qs : list string) (st : state) : state :=
  match qs with
  | [] => st
  | q :: rest => turns session_id rest (snd (ask_question session_id q st))
  end.

End Turns.

End Session.

Module Runs.
Import Py Worker.

(** The run [r] with the alias present or absent. *)
Definition with_alias (present : bool) (r : run) : run :=
  {| now := now r; embeddings_error := embeddings_error r;
     alias_exists := present; rows := rows r |}.

Definition is_warning (e : effect) : bool :=
  match e with LoggedWarning _ => true | _ => false end.

(** The property a [Redis.from_texts] call of a run has to have: it carries
    at least one text and the client and index name given. *)
Definition writes_to (em : embeddings) (name : string) (e : effect) : Prop :=
  match e with
  | FromTexts texts em' name' => texts <> [] /\ em' = em /\ name' = name
  | _ => True
  end.

(** The texts given to the splitter, and the lists of texts written, in the
    order of the calls. *)
Definition texts_split (effects : list effect) : list string :=
  omap (fun e => match e with SplitText text => Some text | _ => None end) effects.

Definition texts_written (effects : list effect) : list (list string) :=
  omap (fun e => match e with FromTexts texts _ _ => Some texts | _ => None end)
    effects.

Section Rows.

Context {ext : Externals}.

(** [len(splits) > 0] for the row. *)
Definition gives_chunks (row : list (string * string)) : bool :=
  (0 <? List.length (split_text (row_str row)))%nat.

End Rows.

End Runs.

(** * Properties *)

(** ** The streaming bridge *)

Module BridgeFacts.
Import Py Bridge.

Section Streamer.

Context {env : Env}.

Lemma log_ok self qn f w :
  question self = Some qn ->
  exists w', log self f w = inr w' /\ channel w' = channel w /\
             logs_answer self qn (answer f) (logged w) (logged w').
Proof.
  intros Hq. unfold Bridge.log. rewrite Hq. cbn.
  eexists; split; [reflexivity|]. cbn. split; [reflexivity|].
  eexists; repeat split; reflexivity.
Qed.

Lemma loop_body_fragment self f s k l :
  PyStr s <> STOP_ITEM ->
  exists t k', forall rest,
    loop_body self f
      {| channel := Arrived (PyStr s) :: rest; time_calls := k; logged := l |} =
      (Yield s,
       {| at_ := AtYieldResult; answer := answer f +:+ s;
          start := start f; ttft := t |},
       {| channel := rest; time_calls := k'; logged := l |}).
Proof.
  intros Hs. unfold loop_body, queue_get. cbn.
  assert (py_eq (PyStr s) STOP_ITEM = false) as ->
    by (unfold py_eq; apply bool_decide_eq_false; exact Hs).
  cbn. destruct (Qeq_bool (ttft f) 0); cbn; eauto.
Qed.

(** A dequeued [None] takes the same branch as a dequeued [STOP_ITEM]. *)
Lemma loop_body_none self f rest k l :
  loop_body self f
    {| channel := Arrived PyNone :: rest; time_calls := k; logged := l |} =
  loop_body self f
    {| channel := Arrived STOP_ITEM :: rest; time_calls := k; logged := l |}.
Proof.
  unfold loop_body, queue_get. cbn.
  assert (py_eq STOP_ITEM STOP_ITEM = true) as ->
    by (unfold py_eq; apply bool_decide_eq_true_2; reflexivity).
  rewrite orb_true_r. reflexivity.
Qed.

Lemma loop_body_stop self qn f w v rest :
  channel w = Arrived v :: rest ->
  v = STOP_ITEM \/ v = PyNone ->
  question self = Some qn ->
  exists f' w',
    loop_body self f w = (StopIteration, f', w')
    /\ at_ f' = Closed /\ answer f' = answer f /\ channel w' = rest
    /\ logs_answer self qn (answer f) (logged w) (logged w').
Proof.
  intros Hc Hv Hq. unfold Bridge.loop_body, queue_get. rewrite Hc.
  assert (py_eq v STOP_ITEM || is_None v = true) as Hstop.
  { destruct Hv as [-> | ->]; [|apply orb_true_r].
    unfold py_eq. rewrite bool_decide_eq_true_2; reflexivity. }
  destruct (Qeq_bool (ttft f) 0); cbn; rewrite Hstop.
  - match goal with |- context [log self ?g ?u] =>
      destruct (log_ok self qn g u Hq) as (w' & -> & Hch & Hl) end.
    eexists _, w'; repeat split; [exact Hch | exact Hl].
  - match goal with |- context [log self ?g ?u] =>
      destruct (log_ok self qn g u Hq) as (w' & -> & Hch & Hl) end.
    eexists _, w'; repeat split; [exact Hch | exact Hl].
Qed.

Lemma loop_body_timeout self qn f w :
  times_out (channel w) ->
  question self = Some qn ->
  exists f' w',
    loop_body self f w = (Yield overload_message, f', w')
    /\ at_ f' = AtYieldAnswer /\ channel w' = tl (channel w)
    /\ logs_answer self qn overload_message (logged w) (logged w').
Proof.
  intros Ht Hq. unfold Bridge.loop_body, queue_get.
  destruct w as [[|[v|] rest] k l]; cbn in Ht |- *; try contradiction.
  - match goal with |- context [log self ?g ?u] =>
      destruct (log_ok self qn g u Hq) as (w' & -> & Hch & Hl) end.
    eexists _, w'; repeat split; [exact Hch | exact Hl].
  - match goal with |- context [log self ?g ?u] =>
      destruct (log_ok self qn g u Hq) as (w' & -> & Hch & Hl) end.
    eexists _, w'; repeat split; [exact Hch | exact Hl].
Qed.

(** [loop_body] reads the locals of the frame, not the place where the
    generator was suspended. *)
Lemma loop_body_at self f w p :
  loop_body self f w =
  loop_body self
    {| at_ := p; answer := answer f; start := start f; ttft := ttft f |} w.
Proof.
  unfold loop_body. destruct (queue_get w) as [[v|] w0]; cbn.
  - destruct (Qeq_bool (ttft f) 0); cbn;
      destruct (py_eq v STOP_ITEM || is_None v); cbn;
      try reflexivity.
  - reflexivity.
Qed.

(** The first [next()] takes the start time and enters the loop. *)
Lemma drain_created fuel self w :
  drain fuel self streamer w =
  drain fuel self
    {| at_ := AtYieldResult; answer := "";
       start := time_time (time_calls w); ttft := 0%Q |}
    {| channel := channel w; time_calls := S (time_calls w);
       logged := logged w |}.
Proof.
  destruct fuel as [|fuel]; [reflexivity|].
  cbn [drain]. unfold next. cbn.
  rewrite (loop_body_at self _ _ AtYieldResult). reflexivity.
Qed.

(** Fragments that arrive in time are yielded one by one, in order, and
    accumulated in [answer]; what comes after them on the queue is met by the
    loop in a frame and at a clock count that do not depend on it. *)
Lemma drain_fragments self frags :
  forall f k l,
    at_ f = AtYieldResult ->
    Forall (fun s => PyStr s <> STOP_ITEM) frags ->
    exists t k', forall tail fuel,
      drain (List.length frags + fuel) self f
        {| channel := map Arrived (map PyStr frags) ++ tail;
           time_calls := k; logged := l |} =
      match
        drain fuel self
          {| at_ := AtYieldResult;
             answer := fold_left String.append frags (answer f);
             start := start f; ttft := t |}
          {| channel := tail; time_calls := k'; logged := l |}
      with
      | Some (ys, e, f2, w2) => Some (frags ++ ys, e, f2, w2)
      | None => None
      end.
Proof.
  induction frags as [|s frags IH]; intros f k l Hat Hns.
  - exists (ttft f), k. intros tail fuel. destruct f; cbn in *; subst.
    destruct (drain fuel self _ _) as [[[[ys e] f2] w2]|]; reflexivity.
  - apply Forall_cons in Hns as [Hs Hns].
    destruct (loop_body_fragment self f s k l Hs) as (t & k1 & Hb).
    destruct (IH {| at_ := AtYieldResult; answer := answer f +:+ s;
                    start := start f; ttft := t |} k1 l eq_refl Hns)
      as (t' & k' & Hd).
    exists t', k'. intros tail fuel.
    cbn [List.length Nat.add drain map app]. unfold next. rewrite Hat, Hb.
    rewrite Hd. cbn.
    destruct (drain fuel self _ _) as [[[[ys e] f2] w2]|]; reflexivity.
Qed.

(** Once closed, the generator only ever answers [StopIteration]. *)
Lemma next_closed self f w :
  at_ f = Closed -> next self f w = (StopIteration, f, w).
Proof. intros Hat. unfold next. rewrite Hat. reflexivity. Qed.

(** Draining a fresh generator when [frags] arrive in time and are followed
    by [last :: rest], in terms of the loop iteration that meets [last]. *)
Lemma drain_prefix self frags k l :
  Forall (fun s => PyStr s <> STOP_ITEM) frags ->
  exists f' k',
    at_ f' = AtYieldResult /\ answer f' = text_of frags /\
    forall tail fuel,
      drain (List.length frags + fuel) self streamer
        {| channel := map Arrived (map PyStr frags) ++ tail;
           time_calls := k; logged := l |} =
      match
        drain fuel self f' {| channel := tail; time_calls := k'; logged := l |}
      with
      | Some (ys, e, f2, w2) => Some (frags ++ ys, e, f2, w2)
      | None => None
      end.
Proof.
  intros Hns.
  destruct (drain_fragments self frags
              {| at_ := AtYieldResult; answer := "";
                 start := time_time k; ttft := 0%Q |} (S k) l eq_refl Hns)
    as (t & k' & Hd).
  eexists _, k'. split; [|split]; [| |intros tail fuel; rewrite drain_created; apply Hd];
    reflexivity.
Qed.

(** Fragments in time, then a value that ends the stream. *)
Lemma drain_until_stop self qn frags v rest k l fuel :
  question self = Some qn ->
  Forall (fun s => PyStr s <> STOP_ITEM) frags ->
  v = STOP_ITEM \/ v = PyNone ->
  (List.length frags < fuel)%nat ->
  exists f' w',
    drain fuel self streamer (incoming (map PyStr frags ++ [v]) rest k l) =
      Some (frags, Exhausted, f', w')
    /\ at_ f' = Closed
    /\ channel w' = rest
    /\ logs_answer self qn (text_of frags) l (logged w').
Proof.
  intros Hq Hns Hv Hfuel.
  destruct (drain_prefix self frags k l Hns) as (f1 & k1 & Hat & Hans & Hd).
  replace fuel with (List.length frags + S (fuel - S (List.length frags)))%nat by lia.
  unfold incoming. rewrite map_app, <- app_assoc. rewrite Hd.
  cbn [drain map app]. unfold next at 1. rewrite Hat.
  destruct (loop_body_stop self qn f1
              {| channel := Arrived v :: rest; time_calls := k1; logged := l |}
              v rest eq_refl Hv Hq)
    as (f' & w' & -> & Hcl & _ & Hch & Hlog).
  exists f', w'. rewrite app_nil_r, <- Hans. repeat split; auto.
Qed.

(** C1. When N fragments, none of them the sentinel, arrive in time and are
    followed by [STOP_ITEM], draining the streamer yields exactly these N
    fragments in the order they were enqueued; the generator is then closed
    (any further [next] stops), the outcomes after the sentinel are left on
    the queue, and one [self.log] call records the accumulated answer. *)
Theorem streamer_yields_fragments_in_order self qn frags rest k l fuel :
  question self = Some qn ->
  Forall (fun s => PyStr s <> STOP_ITEM) frags ->
  (List.length frags < fuel)%nat ->
  exists f' w',
    drain fuel self streamer
      (incoming (map PyStr frags ++ [STOP_ITEM]) rest k l) =
      Some (frags, Exhausted, f', w')
    /\ next self f' w' = (StopIteration, f', w')
    /\ channel w' = rest
    /\ logs_answer self qn (text_of frags) l (logged w').
Proof.
  intros Hq Hns Hfuel.
  destruct (drain_until_stop self qn frags STOP_ITEM rest k l fuel Hq Hns
              (or_introl eq_refl) Hfuel) as (f' & w' & Hd & Hcl & Hch & Hlog).
  exists f', w'. auto using next_closed.
Qed.

(** C2. When, after any number of fragments already yielded, a pull meets no
    value within the timeout, the streamer yields the fixed overload message
    once, after logging it as the answer, and is then closed: the outcomes
    after the timeout are never pulled. *)
Theorem streamer_timeout_yields_overload_once self qn frags tail k l fuel :
  question self = Some qn ->
  Forall (fun s => PyStr s <> STOP_ITEM) frags ->
  times_out tail ->
  (S (List.length frags) < fuel)%nat ->
  exists f' w',
    drain fuel self streamer (incoming (map PyStr frags) tail k l) =
      Some (frags ++ ["The server is overloaded, retry later. Thanks for your patience"%string],
            Exhausted, f', w')
    /\ next self f' w' = (StopIteration, f', w')
    /\ channel w' = tl tail
    /\ logs_answer self qn
         "The server is overloaded, retry later. Thanks for your patience"
         l (logged w').
Proof.
  intros Hq Hns Hto Hfuel.
  destruct (drain_prefix self frags k l Hns) as (f1 & k1 & Hat & Hans & Hd).
  replace fuel with (List.length frags + S (S (fuel - S (S (List.length frags)))))%nat
    by lia.
  unfold incoming. rewrite Hd.
  cbn [drain]. unfold next at 1. rewrite Hat.
  destruct (loop_body_timeout self qn f1
              {| channel := tail; time_calls := k1; logged := l |} Hto Hq)
    as (f2 & w2 & -> & Hat2 & Hch & Hlog).
  unfold next at 1. rewrite Hat2.
  exists (close f2), w2. repeat split; auto using next_closed.
Qed.

(** C9. When the first value pulled is already [STOP_ITEM], the streamer
    yields nothing (in particular not the overload message), logs the empty
    answer and is closed. *)
Theorem streamer_immediate_sentinel self qn rest k l fuel :
  question self = Some qn ->
  (0 < fuel)%nat ->
  exists f' w',
    drain fuel self streamer (incoming [STOP_ITEM] rest k l) =
      Some ([], Exhausted, f', w')
    /\ next self f' w' = (StopIteration, f', w')
    /\ channel w' = rest
    /\ logs_answer self qn "" l (logged w').
Proof.
  intros Hq Hfuel.
  destruct (drain_until_stop self qn [] STOP_ITEM rest k l fuel Hq
              (List.Forall_nil _) (or_introl eq_refl) Hfuel)
    as (f' & w' & Hd & Hcl & Hch & Hlog).
  exists f', w'. auto using next_closed.
Qed.

(** C10. A dequeued [None] is handled exactly like [STOP_ITEM]: it is not
    yielded, the answer accumulated so far is logged, the generator is
    closed, and what was enqueued after it stays undelivered.  The run is the
    same as the run with [STOP_ITEM] in the place of [None]. *)
Theorem streamer_none_ends_stream self qn frags rest k l fuel :
  question self = Some qn ->
  Forall (fun s => PyStr s <> STOP_ITEM) frags ->
  (List.length frags < fuel)%nat ->
  exists f' w',
    drain fuel self streamer (incoming (map PyStr frags ++ [PyNone]) rest k l) =
      Some (frags, Exhausted, f', w')
    /\ drain fuel self streamer
         (incoming (map PyStr frags ++ [STOP_ITEM]) rest k l) =
       Some (frags, Exhausted, f', w')
    /\ next self f' w' = (StopIteration, f', w')
    /\ channel w' = rest
    /\ logs_answer self qn (text_of frags) l (logged w').
Proof.
  intros Hq Hns Hfuel.
  destruct (drain_until_stop self qn frags PyNone rest k l fuel Hq Hns
              (or_intror eq_refl) Hfuel) as (f' & w' & Hd & Hcl & Hch & Hlog).
  exists f', w'. repeat split; auto using next_closed.
  rewrite <- Hd.
  destruct (drain_prefix self frags k l Hns) as (f1 & k1 & Hat & _ & Hp).
  replace fuel with (List.length frags + S (fuel - S (List.length frags)))%nat by lia.
  unfold incoming. rewrite !map_app, <- !app_assoc, !Hp.
  cbn [drain map app]. unfold next. rewrite Hat.
  rewrite loop_body_none. reflexivity.
Qed.

End Streamer.

(** C1 on two fragments followed by the sentinel and a late value. *)
Lemma streamer_yields_fragments_in_order_witness :
  exists f' w',
    drain (env := Examples.env) 3 Examples.self streamer
      (incoming (map PyStr ["Hel"; "lo"] ++ [PyStr "[END]"])
         [Arrived (PyStr "late")] 0 []) =
      Some (["Hel"; "lo"], Exhausted, f', w')
    /\ next (env := Examples.env) Examples.self f' w' = (StopIteration, f', w')
    /\ channel w' = [Arrived (PyStr "late")]
    /\ logs_answer Examples.self "Which film?" (text_of ["Hel"; "lo"]) [] (logged w').
Proof.
  apply (streamer_yields_fragments_in_order (env := Examples.env)
           Examples.self "Which film?" ["Hel"; "lo"] [Arrived (PyStr "late")]
           0%nat [] 3%nat).
  - reflexivity.
  - repeat constructor; discriminate.
  - cbn; lia.
Defined.

(** C2 on one fragment followed by a timeout and a late value. *)
Lemma streamer_timeout_yields_overload_once_witness :
  exists f' w',
    drain (env := Examples.env) 3 Examples.self streamer
      (incoming (map PyStr ["Hel"]) [QueueEmpty; Arrived (PyStr "lo")] 0 []) =
      Some (["Hel"] ++ ["The server is overloaded, retry later. Thanks for your patience"%string],
            Exhausted, f', w')
    /\ next (env := Examples.env) Examples.self f' w' = (StopIteration, f', w')
    /\ channel w' = tl [QueueEmpty; Arrived (PyStr "lo")]
    /\ logs_answer Examples.self "Which film?"
         "The server is overloaded, retry later. Thanks for your patience"
         [] (logged w').
Proof.
  apply (streamer_timeout_yields_overload_once (env := Examples.env)
           Examples.self "Which film?" ["Hel"] [QueueEmpty; Arrived (PyStr "lo")]
           0%nat [] 3%nat).
  - reflexivity.
  - repeat constructor; discriminate.
  - exact I.
  - cbn; lia.
Defined.

(** C9 on a queue that holds the sentinel and then a value. *)
Lemma streamer_immediate_sentinel_witness :
  exists f' w',
    drain (env := Examples.env) 1 Examples.self streamer
      (incoming [PyStr "[END]"] [Arrived (PyStr "late")] 0 []) =
      Some ([], Exhausted, f', w')
    /\ next (env := Examples.env) Examples.self f' w' = (StopIteration, f', w')
    /\ channel w' = [Arrived (PyStr "late")]
    /\ logs_answer Examples.self "Which film?" "" [] (logged w').
Proof.
  apply (streamer_immediate_sentinel (env := Examples.env)
           Examples.self "Which film?" [Arrived (PyStr "late")] 0%nat [] 1%nat).
  - reflexivity.
  - cbn; lia.
Defined.

(** C10 on one fragment followed by [None] and a late value. *)
Lemma streamer_none_ends_stream_witness :
  exists f' w',
    drain (env := Examples.env) 2 Examples.self streamer
      (incoming (map PyStr ["Hel"] ++ [PyNone]) [Arrived (PyStr "lo")] 0 []) =
      Some (["Hel"], Exhausted, f', w')
    /\ drain (env := Examples.env) 2 Examples.self streamer
         (incoming (map PyStr ["Hel"] ++ [PyStr "[END]"]) [Arrived (PyStr "lo")] 0 []) =
       Some (["Hel"], Exhausted, f', w')
    /\ next (env := Examples.env) Examples.self f' w' = (StopIteration, f', w')
    /\ channel w' = [Arrived (PyStr "lo")]
    /\ logs_answer Examples.self "Which film?" (text_of ["Hel"]) [] (logged w').
Proof.
  apply (streamer_none_ends_stream (env := Examples.env)
           Examples.self "Which film?" ["Hel"] [Arrived (PyStr "lo")]
           0%nat [] 2%nat).
  - reflexivity.
  - repeat constructor; discriminate.
  - cbn; lia.
Defined.

End BridgeFacts.

(** ** One conversation turn *)

Module OrchestratorFacts.
Import Py Orchestrator.

(** *** The Redis list of a session under the history operations *)

Lemma stored_lpush sid m st :
  stored sid (snd (add_message sid m st)) = m :: stored sid st.
Proof.
  unfold stored, add_message, lpush, lrange_all. cbn.
  rewrite lookup_insert_eq. reflexivity.
Qed.

Lemma stored_clear sid st : stored sid (snd (clear sid st)) = [].
Proof.
  unfold stored, clear, del, lrange_all. cbn.
  rewrite lookup_delete_eq. reflexivity.
Qed.

Lemma stored_rpop sid count st :
  stored sid (snd (rpop (history_key sid) count st)) =
  take (Z.to_nat (Z.of_nat (List.length (stored sid st)) - count)) (stored sid st).
Proof.
  unfold stored, rpop, lrange_all. cbn.
  destruct (take _ _) as [|m kept] eqn:Hk; cbn.
  - rewrite lookup_delete_eq. reflexivity.
  - rewrite lookup_insert_eq. reflexivity.
Qed.

Section Turn.

Context {env : Bridge.Env} {svc : Services}.

(** Trimming keeps the [MINIPILOT_HISTORY_LENGTH] most recent messages of a
    longer history, and all of a shorter one. *)
Lemma stored_trim sid st :
  stored sid (snd (trim_history sid st)) =
  take (Z.to_nat MINIPILOT_HISTORY_LENGTH) (stored sid st).
Proof.
  unfold trim_history, bind, llen. cbn.
  fold (stored sid st).
  destruct (Z.ltb_spec MINIPILOT_HISTORY_LENGTH (Z.of_nat (List.length (stored sid st))))
    as [Hlt|Hge].
  - rewrite stored_rpop. f_equal. lia.
  - cbn. symmetry. apply take_ge. lia.
Qed.

(** Trimming touches the Redis list only. *)
Lemma trim_history_frame sid st :
  let st1 := snd (trim_history sid st) in
  cache st1 = cache st /\ popularity st1 = popularity st /\
  queue st1 = queue st /\ llm_calls st1 = llm_calls st /\
  warnings st1 = warnings st.
Proof.
  unfold trim_history, bind, llen. cbn.
  destruct (_ <? _); cbn; repeat split; reflexivity.
Qed.

Lemma ask_question_miss sid q st :
  cache_miss q st -> ask_question sid q st = full_path sid q st.
Proof. unfold cache_miss, ask_question. intros ->. reflexivity. Qed.

Lemma collect_references_snoc docs doc :
  collect_references (docs ++ [doc]) = add_reference (collect_references docs) doc.
Proof. unfold collect_references. rewrite fold_left_app. reflexivity. Qed.

(** At least one reference is collected exactly when a source document was
    returned. *)
Lemma collect_references_empty docs :
  collect_references docs = ∅ <-> docs = [].
Proof.
  split; [|intros ->; reflexivity].
  destruct docs as [|d docs _] using rev_ind; [reflexivity|].
  rewrite collect_references_snoc. unfold add_reference. intros H.
  apply insert_non_empty in H. contradiction.
Qed.

(** What the cache-hit branch returns and leaves on the queue. *)
Lemma cache_hit_queue sid q top st :
  (cache_hit sid q top st).1 = Return None /\
  queue (cache_hit sid q top st).2 =
    queue st ++ [PyStr (hit_response top); Bridge.STOP_ITEM].
Proof.
  unfold cache_hit, bind, q_put, rate_cache_item, add_user_message,
    add_message, lpush, ret. cbn.
  rewrite <- app_assoc. split; reflexivity.
Qed.

Lemma ask_question_hit sid q st top others :
  MINIPILOT_CACHE_ENABLED = true ->
  llmcache_check (cache st) q = top :: others ->
  ask_question sid q st = cache_hit sid q top st.
Proof. intros Hen Hhit. unfold ask_question. rewrite Hen, Hhit. reflexivity. Qed.

(** C4. With caching enabled and at least one hit, the turn puts the top
    hit's stored response and then [STOP_ITEM] on the queue, calls no LLM,
    raises the popularity of the hit by one (and of no other item), appends
    the user message with the original question and the AI message with the
    cached response and metadata to the history, and returns. *)
Theorem cache_hit_short_circuit sid q st top others :
  MINIPILOT_CACHE_ENABLED = true ->
  llmcache_check (cache st) q = top :: others ->
  exists st',
    ask_question sid q st = (Return None, st')
    /\ queue st' = queue st ++ [PyStr (hit_response top); Bridge.STOP_ITEM]
    /\ llm_calls st' = llm_calls st
    /\ popularity_of (hit_id top) st' = popularity_of (hit_id top) st + 1
    /\ (forall id, id <> hit_id top -> popularity_of id st' = popularity_of id st)
    /\ stored sid st' =
         ai_message (hit_response top) (default ∅ (hit_metadata top))
         :: human_message q :: stored sid st
    /\ cache st' = cache st.
Proof.
  intros Hen Hhit. unfold ask_question. rewrite Hen, Hhit.
  unfold cache_hit, bind, q_put, rate_cache_item, add_user_message,
    add_message, lpush, ret. cbn.
  eexists. split; [reflexivity|].
  unfold stored, lrange_all, popularity_of. cbn.
  rewrite <- app_assoc. repeat split.
  - rewrite lookup_insert_eq. reflexivity.
  - intros id Hid. rewrite lookup_insert_ne by congruence. reflexivity.
  - rewrite !lookup_insert_eq. destruct (hit_metadata top); reflexivity.
Qed.

(** The full path when the chain returns [result]. *)
Lemma full_path_returns sid q st tokens result :
  chain_outcome sid q st = Returns tokens result ->
  exists st',
    full_path sid q st = (Return (Some result), st')
    /\ stored sid st' =
         ai_message (r_answer result) (collect_references (r_source_documents result))
         :: human_message (r_question result)
         :: stored sid (snd (trim_history sid st))
    /\ queue st' = queue st ++ tokens
    /\ llm_calls st' = llm_calls st ++ [q]
    /\ popularity st' = popularity st
    /\ warnings st' = warnings st
    /\ cache st' =
         if negb (size (collect_references (r_source_documents result)) =? 0)%nat
            && MINIPILOT_CACHE_ENABLED
         then cache st ++
              [ {| prompt := r_generated_question result;
                   response := r_answer result;
                   metadata := collect_references (r_source_documents result) |} ]
         else cache st.
Proof.
  intros Hout. unfold chain_outcome in Hout.
  destruct (trim_history_frame sid st) as (Hc & Hp & Hq & Hl & Hw).
  unfold full_path, bind.
  destruct (trim_history sid st) as [[] st1]. cbn [snd] in *.
  unfold invoke. rewrite Hout.
  unfold add_user_message, add_message, lpush, ret. cbn.
  destruct (negb _ && _); cbn;
    (eexists; split; [reflexivity|]);
    unfold stored, lrange_all; cbn;
    rewrite !lookup_insert_eq, Hc, Hp, Hq, Hl, Hw; repeat split; reflexivity.
Qed.

(** The full path when the chain raises [openai.OpenAIError]. *)
Lemma full_path_openai_error sid q st tokens e :
  chain_outcome sid q st = RaisesOpenAIError tokens e ->
  exists st',
    full_path sid q st = (Return None, st')
    /\ stored sid st' = []
    /\ queue st' =
         notify "This conversation is too long, started a new one"
           (queue st ++ tokens)
    /\ llm_calls st' = llm_calls st ++ [q]
    /\ popularity st' = popularity st
    /\ warnings st' = warnings st ++ ["OpenAIError: " +:+ e]
    /\ cache st' = cache st.
Proof.
  intros Hout. unfold chain_outcome in Hout.
  destruct (trim_history_frame sid st) as (Hc & Hp & Hq & Hl & Hw).
  unfold full_path, bind.
  destruct (trim_history sid st) as [[] st1]. cbn [snd] in *.
  unfold invoke. rewrite Hout.
  unfold callback_notify, logging_warning, clear, del, ret. cbn.
  eexists; split; [reflexivity|].
  unfold stored, lrange_all; cbn.
  rewrite lookup_delete_eq, Hc, Hp, Hq, Hl, Hw. repeat split; reflexivity.
Qed.

(** C5. On a cache miss where the chain returns, the semantic cache is
    written exactly when caching is enabled and at least one reference was
    collected; the entry written maps the generated (standalone) question to
    the answer, with the references as metadata. *)
Theorem cache_written_iff_references sid q st tokens result :
  cache_miss q st ->
  chain_outcome sid q st = Returns tokens result ->
  exists st',
    ask_question sid q st = (Return (Some result), st')
    /\ (cache st' <> cache st <->
        MINIPILOT_CACHE_ENABLED = true /\
        collect_references (r_source_documents result) <> ∅)
    /\ (cache st' <> cache st ->
        cache st' = cache st ++
          [ {| prompt := r_generated_question result;
               response := r_answer result;
               metadata := collect_references (r_source_documents result) |} ]).
Proof.
  intros Hmiss Hout. rewrite (ask_question_miss sid q st Hmiss).
  destruct (full_path_returns sid q st tokens result Hout)
    as (st' & -> & _ & _ & _ & _ & _ & Hcache).
  exists st'. split; [reflexivity|]. rewrite Hcache.
  assert (size (collect_references (r_source_documents result)) = 0%nat <->
          collect_references (r_source_documents result) = ∅) as Hsz
    by apply map_size_empty_iff.
  destruct (Nat.eqb_spec (size (collect_references (r_source_documents result))) 0)
    as [Hz|Hnz]; cbn.
  - split; [split|]; [congruence | | congruence].
    intros [_ Hne]. apply Hsz in Hz. contradiction.
  - destruct MINIPILOT_CACHE_ENABLED; cbn.
    + split; [split|]; [ | | reflexivity ].
      * intros _. split; [reflexivity|]. intros He. apply Hsz in He. contradiction.
      * intros _ Heq. apply (f_equal List.length) in Heq.
        rewrite length_app in Heq. cbn in Heq. lia.
    + split; [split|]; [congruence | | congruence].
      intros [Hf _]. discriminate.
Qed.

(** C6. On a cache miss where the chain raises a provider error, the
    callback is notified with the fixed message, the history of the session
    is cleared (its length is 0), a warning is logged, and the turn returns
    [None] with no cache entry added. *)
Theorem provider_error_resets_history sid q st tokens e :
  cache_miss q st ->
  chain_outcome sid q st = RaisesOpenAIError tokens e ->
  exists st',
    ask_question sid q st = (Return None, st')
    /\ queue st' =
         notify "This conversation is too long, started a new one"
           (queue st ++ tokens)
    /\ stored sid st' = []
    /\ fst (llen (history_key sid) st') = 0
    /\ warnings st' = warnings st ++ ["OpenAIError: " +:+ e]
    /\ cache st' = cache st.
Proof.
  intros Hmiss Hout. rewrite (ask_question_miss sid q st Hmiss).
  destruct (full_path_openai_error sid q st tokens e Hout)
    as (st' & -> & Hs & Hq & _ & _ & Hw & Hc).
  exists st'. repeat split; auto.
  unfold llen. cbn. fold (stored sid st'). rewrite Hs. reflexivity.
Qed.

(** C3 (amended). On a cache miss where the chain returns, a history of more
    than [MINIPILOT_HISTORY_LENGTH] messages is first cut down to its
    [MINIPILOT_HISTORY_LENGTH] most recent messages, and the two messages of
    the new turn are then added: the store ends with
    [MINIPILOT_HISTORY_LENGTH + 2] messages. *)
Theorem history_trimmed_before_turn sid q st tokens result :
  cache_miss q st ->
  chain_outcome sid q st = Returns tokens result ->
  0 <= MINIPILOT_HISTORY_LENGTH < Z.of_nat (List.length (stored sid st)) ->
  exists st',
    ask_question sid q st = (Return (Some result), st')
    /\ stored sid st' =
         ai_message (r_answer result) (collect_references (r_source_documents result))
         :: human_message (r_question result)
         :: take (Z.to_nat MINIPILOT_HISTORY_LENGTH) (stored sid st)
    /\ Z.of_nat (List.length (stored sid st')) = MINIPILOT_HISTORY_LENGTH + 2.
Proof.
  intros Hmiss Hout [Hl Hlt]. rewrite (ask_question_miss sid q st Hmiss).
  destruct (full_path_returns sid q st tokens result Hout)
    as (st' & -> & Hs & _).
  exists st'. rewrite Hs, (stored_trim sid st).
  repeat split. cbn [List.length]. rewrite length_take. lia.
Qed.

(** X4. From the producer to the consumer: after [ask] on an empty queue, when
    the cache answers a hit whose response is not the sentinel itself, a
    consumer that meets the queued values in time is given the cached
    response and nothing else. *)
Corollary cache_hit_streams_response self q st top others k l fuel :
  MINIPILOT_CACHE_ENABLED = true ->
  llmcache_check (cache st) q = top :: others ->
  queue st = [] ->
  PyStr (hit_response top) <> Bridge.STOP_ITEM ->
  (1 < fuel)%nat ->
  exists st' f' w',
    (ask self q).2 st = (Return None, st')
    /\ Bridge.drain fuel (ask self q).1 Bridge.streamer
         (Bridge.incoming (queue st') [] k l) =
       Some ([hit_response top], Bridge.Exhausted, f', w')
    /\ Bridge.logs_answer (ask self q).1 q (hit_response top) l (Bridge.logged w').
Proof.
  intros Hen Hhit Hq Hns Hfuel.
  cbn [ask fst snd].
  rewrite (ask_question_hit (Bridge.session_id self) q st top others Hen Hhit).
  destruct (cache_hit_queue (Bridge.session_id self) q top st) as [Hret Hqueue].
  destruct (cache_hit (Bridge.session_id self) q top st) as [r st'].
  cbn [fst snd] in Hret, Hqueue. subst r.
  assert (Forall (fun s => PyStr s <> Bridge.STOP_ITEM) [hit_response top]) as Hall
    by (repeat constructor; exact Hns).
  destruct (BridgeFacts.drain_until_stop
              {| Bridge.session_id := Bridge.session_id self;
                 Bridge.question := Some q |} q [hit_response top]
              Bridge.STOP_ITEM [] k l fuel eq_refl Hall (or_introl eq_refl) Hfuel)
    as (f' & w' & Hd & _ & _ & Hlog).
  exists st', f', w'. rewrite Hqueue, Hq. auto.
Qed.

End Turn.

(** C4 on a session of five turns and a cache that answers one hit. *)
Lemma cache_hit_short_circuit_witness :
  exists st',
    ask_question (env := Examples.env) (svc := Examples.svc_hit)
      "s1" "Which film?" Examples.five_turns = (Return None, st')
    /\ queue st' = queue Examples.five_turns ++ [PyStr "Avatar."; PyStr "[END]"]
    /\ llm_calls st' = llm_calls Examples.five_turns
    /\ popularity_of "llmcache:7" st' =
       popularity_of "llmcache:7" Examples.five_turns + 1
    /\ (forall id, id <> "llmcache:7"%string ->
        popularity_of id st' = popularity_of id Examples.five_turns)
    /\ stored "s1" st' =
         ai_message "Avatar." (default ∅ None)
         :: human_message "Which film?" :: stored "s1" Examples.five_turns
    /\ cache st' = cache Examples.five_turns.
Proof.
  apply (cache_hit_short_circuit (env := Examples.env) (svc := Examples.svc_hit)
           "s1" "Which film?" Examples.five_turns Examples.a_hit []).
  - reflexivity.
  - reflexivity.
Defined.

(** C5 with caching on, a miss, and one source document. *)
Lemma cache_written_iff_references_witness :
  exists st',
    ask_question (env := Examples.env) (svc := Examples.svc_miss)
      "s1" "Which film?" Examples.five_turns =
      (Return (Some Examples.a_result), st')
    /\ (cache st' <> cache Examples.five_turns <->
        true = true /\ collect_references [Examples.doc1] <> ∅)
    /\ (cache st' <> cache Examples.five_turns ->
        cache st' = cache Examples.five_turns ++
          [ {| prompt := "Which film made the most money?";
               response := "Avatar.";
               metadata := collect_references [Examples.doc1] |} ]).
Proof.
  apply (cache_written_iff_references (env := Examples.env) (svc := Examples.svc_miss)
           "s1" "Which film?" Examples.five_turns Examples.streamed Examples.a_result).
  - reflexivity.
  - reflexivity.
Defined.

(** C6 with a provider that refuses the request. *)
Lemma provider_error_resets_history_witness :
  exists st',
    ask_question (env := Examples.env) (svc := Examples.svc_error)
      "s1" "Which film?" Examples.five_turns = (Return None, st')
    /\ queue st' =
         (queue Examples.five_turns ++ []) ++
         [PyStr "This conversation is too long, started a new one"; PyStr "[END]"]
    /\ stored "s1" st' = []
    /\ fst (llen (history_key "s1") st') = 0
    /\ warnings st' =
         warnings Examples.five_turns ++ ["OpenAIError: context_length_exceeded"%string]
    /\ cache st' = cache Examples.five_turns.
Proof.
  apply (provider_error_resets_history (env := Examples.env) (svc := Examples.svc_error)
           "s1" "Which film?" Examples.five_turns [] "context_length_exceeded").
  - reflexivity.
  - reflexivity.
Defined.

(** C3 (counterexample). With [MINIPILOT_HISTORY_LENGTH = 4] and five turns
    (ten messages) stored, one more full turn leaves six messages in the
    store: neither four messages nor four turns. *)
Lemma history_after_turn_exceeds_length :
  MINIPILOT_HISTORY_LENGTH (Services := Examples.svc_off) = 4
  /\ List.length (stored "s1" Examples.five_turns) = 10%nat
  /\ cache_miss (svc := Examples.svc_off) "Which film?" Examples.five_turns
  /\ fst (ask_question (env := Examples.env) (svc := Examples.svc_off)
            "s1" "Which film?" Examples.five_turns) =
     Return (Some Examples.a_result)
  /\ List.length
       (stored "s1"
          (snd (ask_question (env := Examples.env) (svc := Examples.svc_off)
                  "s1" "Which film?" Examples.five_turns))) = 6%nat.
Proof. repeat split; reflexivity. Qed.

(** The amended C3 on a session of five turns with caching off. *)
Lemma history_trimmed_before_turn_witness :
  exists st',
    ask_question (env := Examples.env) (svc := Examples.svc_off)
      "s1" "Which film?" Examples.five_turns =
      (Return (Some Examples.a_result), st')
    /\ stored "s1" st' =
         ai_message "Avatar." (collect_references [Examples.doc1])
         :: human_message "Which film?"
         :: take (Z.to_nat 4) (stored "s1" Examples.five_turns)
    /\ Z.of_nat (List.length (stored "s1" st')) = 4 + 2.
Proof.
  apply (history_trimmed_before_turn (env := Examples.env) (svc := Examples.svc_off)
           "s1" "Which film?" Examples.five_turns Examples.streamed Examples.a_result).
  - reflexivity.
  - reflexivity.
  - vm_compute. split; [discriminate | reflexivity].
Defined.

End OrchestratorFacts.

(** ** The ingestion worker *)

Module WorkerFacts.
Import Py Worker.

(** *** Strings of known length *)

Lemma length_append (a b : string) :
  String.length (a +:+ b) = (String.length a + String.length b)%nat.
Proof. induction a as [|c a IH]; simpl; [reflexivity | f_equal; exact IH]. Qed.

Lemma append_inj_prefix (p a b : string) : p +:+ a = p +:+ b -> a = b.
Proof.
  induction p as [|c p IH]; cbn; intros H; [exact H|].
  injection H as H. auto.
Qed.

(** Two concatenations with tails of the same length agree part by part. *)
Lemma append_inj_tail (a b s t : string) :
  String.length s = String.length t ->
  a +:+ s = b +:+ t -> a = b /\ s = t.
Proof.
  revert b. induction a as [|c a IH]; intros [|d b] Hlen H.
  - auto.
  - apply (f_equal String.length) in H.
    rewrite !length_append in H. simpl in H. lia.
  - apply (f_equal String.length) in H.
    rewrite !length_append in H. simpl in H. lia.
  - injection H as -> H. destruct (IH b Hlen H) as [-> ->]. auto.
Qed.

(** *** Digits *)

Lemma digit_inj (a b : Z) :
  0 <= a < 10 -> 0 <= b < 10 -> digit a = digit b -> a = b.
Proof.
  intros Ha Hb H. unfold digit in H.
  apply (f_equal N_of_ascii) in H.
  rewrite !N_ascii_embedding in H by lia. lia.
Qed.

Lemma pad2_inj (a b : Z) :
  0 <= a < 100 -> 0 <= b < 100 -> pad2 a = pad2 b -> a = b.
Proof.
  intros Ha Hb H. unfold pad2 in H. injection H as H1 H0.
  apply digit_inj in H1; [|Z.div_mod_to_equations; lia..].
  apply digit_inj in H0; [|Z.div_mod_to_equations; lia..].
  Z.div_mod_to_equations; lia.
Qed.

Lemma pad2_length (n : Z) : String.length (pad2 n) = 2%nat.
Proof. reflexivity. Qed.

Lemma pad4_inj (a b : Z) :
  0 <= a < 10000 -> 0 <= b < 10000 -> pad4 a = pad4 b -> a = b.
Proof.
  intros Ha Hb H. unfold pad4 in H.
  apply append_inj_tail in H as [H1 H0]; [|reflexivity].
  apply pad2_inj in H1; [|Z.div_mod_to_equations; lia..].
  apply pad2_inj in H0; [|Z.div_mod_to_equations; lia..].
  Z.div_mod_to_equations; lia.
Qed.

Lemma strftime_length (t : datetime) : String.length (strftime t) = 15%nat.
Proof. reflexivity. Qed.

(** The formatted timestamp determines the date and time to the second, and
    nothing below the second. *)
Lemma strftime_inj (t1 t2 : datetime) :
  in_range t1 -> in_range t2 ->
  strftime t1 = strftime t2 ->
  year t1 = year t2 /\ month t1 = month t2 /\ day t1 = day t2 /\
  hour t1 = hour t2 /\ minute t1 = minute t2 /\ second t1 = second t2.
Proof.
  intros (Hy1 & Hm1 & Hd1 & HH1 & HM1 & HS1 & _)
         (Hy2 & Hm2 & Hd2 & HH2 & HM2 & HS2 & _) H.
  unfold strftime in H.
  apply append_inj_tail in H as [Hy H]; [|reflexivity].
  apply append_inj_tail in H as [Hm H]; [|reflexivity].
  apply append_inj_tail in H as [Hd H]; [|reflexivity].
  apply append_inj_prefix in H.
  apply append_inj_tail in H as [HH H]; [|reflexivity].
  apply append_inj_tail in H as [HM HS]; [|reflexivity].
  apply pad4_inj in Hy; [|lia..].
  apply pad2_inj in Hm; [|lia..]. apply pad2_inj in Hd; [|lia..].
  apply pad2_inj in HH; [|lia..]. apply pad2_inj in HM; [|lia..].
  apply pad2_inj in HS; [|lia..]. repeat split; assumption.
Qed.

Section Task.

Context {ext : Externals}.

(** C8 (amended). The index names of two runs are the same exactly when the
    file names without extension are the same and the two runs start in the
    same second of the same day; the name does not depend on the
    microsecond. *)
Theorem index_name_eq_iff f1 t1 f2 t2 :
  in_range t1 -> in_range t2 ->
  index_name f1 t1 = index_name f2 t2 <->
  get_filename_without_extension f1 = get_filename_without_extension f2 /\
  year t1 = year t2 /\ month t1 = month t2 /\ day t1 = day t2 /\
  hour t1 = hour t2 /\ minute t1 = minute t2 /\ second t1 = second t2.
Proof.
  intros Hr1 Hr2. unfold index_name. split.
  - intros H. apply append_inj_prefix in H.
    apply append_inj_tail in H as [Hf H]; [|reflexivity].
    apply append_inj_prefix in H.
    apply append_inj_tail in H as [Ht _]; [|reflexivity].
    split; [exact Hf|]. apply strftime_inj; assumption.
  - intros (-> & Hy & Hm & Hd & HH & HM & HS).
    unfold strftime. rewrite Hy, Hm, Hd, HH, HM, HS. reflexivity.
Qed.

(** Without an embedding client nothing is written to the index. *)
Lemma ingest_unbound_no_write name rs :
  index_writes (fst (ingest name None rs)) = 0%nat.
Proof.
  induction rs as [|row rest IH]; cbn [ingest]; [reflexivity|].
  destruct (0 <? List.length (split_text (row_str row)))%nat; [reflexivity|].
  destruct (ingest name None rest) as [effects e]. exact IH.
Qed.

Lemma failed_embeddings_no_write filename r e :
  embeddings_error r = Some e ->
  index_writes (fst (csv_loader_task filename r)) = 0%nat.
Proof.
  intros He. unfold csv_loader_task. rewrite He.
  pose proof (ingest_unbound_no_write (index_name filename (now r)) (rows r)) as Hn.
  destruct (ingest _ None (rows r)) as [effects e']. cbn [fst] in *.
  unfold index_writes in *. rewrite !filter_app, !length_app.
  destruct (alias_exists r); cbn; exact Hn.
Qed.

(** When building the embedding client raises and the first row gives at
    least one chunk, the run still checks the alias, reads and splits that
    row, and only then stops, on the unbound variable. *)
Lemma failed_embeddings_first_row filename r e row rest :
  embeddings_error r = Some e ->
  rows r = row :: rest ->
  split_text (row_str row) <> [] ->
  csv_loader_task filename r =
    (LoggedError e ::
     (if alias_exists r then []
      else [LoggedWarning
              "No alias exists for semantic search. Associate the alias to the desired index"])
     ++ [SplitText (row_str row)],
     Raised (UnboundLocalError "embedding_model")).
Proof.
  intros He Hrows Hsplit. unfold csv_loader_task. rewrite He, Hrows. cbn.
  destruct (split_text (row_str row)) as [|c cs]; [contradiction|]. reflexivity.
Qed.

End Task.

(** C7 (at the failing input). With no API key and a file of one row, the
    worker logs the error, then serialises and splits the row, and stops with
    [UnboundLocalError] when it is about to write: one row was processed
    after the failure, nothing was written. *)
Theorem failed_embeddings_run_goes_on :
  csv_loader_task (ext := Examples.ext) "movies.csv" Examples.no_api_key =
    ([LoggedError "Did not find openai_api_key";
      SplitText ("names: Avatar" +:+ newline +:+ "genre: Action")],
     Raised (UnboundLocalError "embedding_model"))
  /\ rows_processed
       (fst (csv_loader_task (ext := Examples.ext) "movies.csv" Examples.no_api_key))
     = 1%nat
  /\ index_writes
       (fst (csv_loader_task (ext := Examples.ext) "movies.csv" Examples.no_api_key))
     = 0%nat.
Proof. repeat split; reflexivity. Qed.

(** C8 (counterexample). Two runs over the same file that start at different
    instants of the same second get the same index name. *)
Lemma index_name_collision :
  in_range (Examples.at_microsecond 1) /\
  in_range (Examples.at_microsecond 900000) /\
  Examples.at_microsecond 1 <> Examples.at_microsecond 900000 /\
  index_name (ext := Examples.ext) "movies.csv" (Examples.at_microsecond 1) =
  index_name (ext := Examples.ext) "movies.csv" (Examples.at_microsecond 900000).
Proof.
  unfold in_range. cbn. repeat split; try lia. discriminate.
Qed.

(** The amended C8 on two runs over the same file within one second. *)
Lemma index_name_eq_iff_witness :
  index_name (ext := Examples.ext) "movies.csv" (Examples.at_microsecond 1) =
  index_name (ext := Examples.ext) "movies.csv" (Examples.at_microsecond 900000)
  <->
  Examples.stem "movies.csv" = Examples.stem "movies.csv" /\
  2024 = 2024 /\ 3 = 3 /\ 7 = 7 /\ 9 = 9 /\ 5 = 5 /\ 0 = 0.
Proof.
  apply (index_name_eq_iff (ext := Examples.ext) "movies.csv"
           (Examples.at_microsecond 1) "movies.csv" (Examples.at_microsecond 900000));
    unfold in_range; cbn; lia.
Defined.

End WorkerFacts.

(** ** More on the streaming bridge *)

Module ChannelFacts.
Import Py Bridge Channel.

Section Reading.

Context {env : Env}.

(** Any sequence of outcomes is a run of fragments followed by the outcome
    that ends the loop. *)
Lemma channel_split (c : list pull) :
  map Arrived (map PyStr (fragments_before_stop c)) ++ from_stop c = c
  /\ Forall (fun s => PyStr s <> STOP_ITEM) (fragments_before_stop c)
  /\ match from_stop c with
     | Arrived v :: _ => v = STOP_ITEM \/ v = PyNone
     | _ => True
     end.
Proof.
  induction c as [|[[s|]|] rest (IHc & IHf & IHs)]; cbn;
    try (repeat split; auto; fail).
  destruct (stops (PyStr s)) eqn:Hst; cbn.
  - repeat split; auto. left.
    unfold stops in Hst. rewrite orb_false_r in Hst.
    apply bool_decide_eq_true_1 in Hst. exact Hst.
  - rewrite IHc. repeat split; auto. constructor; [|exact IHf].
    unfold stops in Hst. rewrite orb_false_r in Hst.
    apply bool_decide_eq_false_1 in Hst. exact Hst.
Qed.

Lemma fragments_before_stop_length (c : list pull) :
  (List.length (fragments_before_stop c) + List.length (from_stop c) =
   List.length c)%nat.
Proof.
  destruct (channel_split c) as (Hc & _ & _).
  apply (f_equal (@List.length pull)) in Hc.
  rewrite length_app, !length_map in Hc. exact Hc.
Qed.

(** X1. Whatever the outcomes of the pulls are, draining the streamer ends
    within two more [next] than there are outcomes: it yields the fragments
    that precede the first sentinel, [None] or timeout, then the overload
    message if that first outcome is a timeout (or nothing is left to
    arrive), and nothing else; it pulls nothing after that outcome and calls
    [self.log] once. *)
Theorem streamer_stops_at_first_terminator self qn c k l fuel :
  question self = Some qn ->
  (S (List.length c) < fuel)%nat ->
  exists f' w',
    drain fuel self streamer {| channel := c; time_calls := k; logged := l |} =
      Some (fragments_before_stop c ++
              match from_stop c with
              | Arrived _ :: _ => []
              | _ => [overload_message]
              end,
            Exhausted, f', w')
    /\ next self f' w' = (StopIteration, f', w')
    /\ channel w' = tl (from_stop c)
    /\ logs_answer self qn
         match from_stop c with
         | Arrived _ :: _ => text_of (fragments_before_stop c)
         | _ => overload_message
         end l (logged w').
Proof.
  intros Hq Hfuel.
  destruct (channel_split c) as (Hc & Hns & Hstop).
  pose proof (fragments_before_stop_length c) as Hlen.
  set (frags := fragments_before_stop c) in *.
  destruct (from_stop c) as [|[v|] rest] eqn:Hfrom.
  - (* nothing is left to arrive *)
    destruct (BridgeFacts.drain_prefix self frags k l Hns)
      as (f1 & k1 & Hat & Hans & Hd).
    replace fuel with (List.length frags + S (S (fuel - S (S (List.length frags)))))%nat
      by lia.
    rewrite <- Hc, Hd. cbn [drain]. unfold next at 1. rewrite Hat.
    destruct (BridgeFacts.loop_body_timeout self qn f1
                {| channel := []; time_calls := k1; logged := l |} I Hq)
      as (f2 & w2 & -> & Hat2 & Hch & Hlog).
    unfold next at 1. rewrite Hat2.
    exists (close f2), w2. repeat split; auto using BridgeFacts.next_closed.
  - (* a value that ends the loop *)
    destruct (BridgeFacts.drain_until_stop self qn frags v rest k l fuel Hq Hns Hstop)
      as (f' & w' & Hd & Hcl & Hch & Hlog); [lia|].
    exists f', w'. rewrite <- Hc, app_nil_r.
    unfold incoming in Hd. rewrite map_app, <- app_assoc in Hd.
    repeat split; auto using BridgeFacts.next_closed.
  - (* a timeout *)
    destruct (BridgeFacts.drain_prefix self frags k l Hns)
      as (f1 & k1 & Hat & Hans & Hd).
    replace fuel with (List.length frags + S (S (fuel - S (S (List.length frags)))))%nat
      by (cbn in Hlen; lia).
    rewrite <- Hc, Hd. cbn [drain]. unfold next at 1. rewrite Hat.
    destruct (BridgeFacts.loop_body_timeout self qn f1
                {| channel := QueueEmpty :: rest; time_calls := k1; logged := l |} I Hq)
      as (f2 & w2 & -> & Hat2 & Hch & Hlog).
    unfold next at 1. rewrite Hat2.
    exists (close f2), w2. repeat split; auto using BridgeFacts.next_closed.
Qed.

(** X2. The generator is lazy: one [next] takes at most one outcome from the
    queue, the first one, and calls [self.log] at most once. *)
Theorem next_pulls_at_most_once self f w :
  (channel (next self f w).2 = channel w \/
   channel (next self f w).2 = tl (channel w))
  /\ (logged (next self f w).2 = logged w \/
      exists e, logged (next self f w).2 = logged w ++ [e]).
Proof.
  assert (forall g u,
    (channel (loop_body self g u).2 = channel u \/
     channel (loop_body self g u).2 = tl (channel u))
    /\ (logged (loop_body self g u).2 = logged u \/
        exists e, logged (loop_body self g u).2 = logged u ++ [e])) as Hbody.
  { intros g u. unfold loop_body, queue_get, log.
    destruct u as [[|[v|] rest] k l]; cbn;
      destruct (question self) as [qn|]; cbn;
      try destruct (Qeq_bool (ttft g) 0); cbn;
      try destruct (py_eq v STOP_ITEM || is_None v); cbn;
      try destruct v; cbn; eauto. }
  unfold next. destruct (at_ f); cbn; auto.
  destruct (Hbody {| at_ := Created; answer := ""; start := time_time (time_calls w);
                     ttft := 0%Q |}
              {| channel := channel w; time_calls := S (time_calls w);
                 logged := logged w |}) as [Hc Hl].
  split; assumption.
Qed.


End Reading.

(** X1 on two fragments, a timeout and a late value. *)
Lemma streamer_stops_at_first_terminator_witness :
  exists f' w',
    drain (env := Examples.env) 6 Examples.self streamer
      {| channel := [Arrived (PyStr "Hel"); Arrived (PyStr "lo"); QueueEmpty;
                     Arrived (PyStr "late")];
         time_calls := 0; logged := [] |} =
      Some (["Hel"; "lo"] ++ [overload_message], Exhausted, f', w')
    /\ next (env := Examples.env) Examples.self f' w' = (StopIteration, f', w')
    /\ channel w' = [Arrived (PyStr "late")]
    /\ logs_answer Examples.self "Which film?" overload_message [] (logged w').
Proof.
  apply (streamer_stops_at_first_terminator (env := Examples.env)
           Examples.self "Which film?"
           [Arrived (PyStr "Hel"); Arrived (PyStr "lo"); QueueEmpty;
            Arrived (PyStr "late")] 0%nat [] 6%nat).
  - reflexivity.
  - cbn; lia.
Defined.


End ChannelFacts.

(** ** More on sessions and turns *)

Module SessionFacts.
Import Py Orchestrator Session.

Lemma history_key_inj a b : history_key a = history_key b -> a = b.
Proof. unfold history_key. apply WorkerFacts.append_inj_prefix. Qed.

(** Rewrites the lookups under the key of another session. *)
Ltac other_key Hk :=
  unfold stored, lrange_all; cbn;
  repeat first
    [ rewrite lookup_insert_ne by (intros E; apply history_key_inj in E; exact (Hk E))
    | rewrite lookup_delete_ne by (intros E; apply history_key_inj in E; exact (Hk E)) ];
  try reflexivity.

Section Turn.

Context {env : Bridge.Env} {svc : Services}.

Lemma trim_history_other sid sid' st :
  sid <> sid' ->
  stored sid' (trim_history sid st).2 = stored sid' st.
Proof.
  intros Hk. unfold trim_history, bind, llen, rpop, ret. cbn.
  destruct (_ <? _); [|reflexivity].
  destruct (take _ _); other_key Hk.
Qed.

(** X5. A turn of one session leaves the stored history of every other
    session as it was, however the turn ends. *)
Theorem ask_question_other_session sid sid' q st :
  sid <> sid' ->
  stored sid' (ask_question sid q st).2 = stored sid' st.
Proof.
  intros Hk. unfold ask_question.
  destruct (if MINIPILOT_CACHE_ENABLED then llmcache_check (cache st) q else [])
    as [|top others].
  - unfold full_path, bind.
    pose proof (trim_history_other sid sid' st Hk) as Ht.
    destruct (trim_history sid st) as [[] st1]. cbn [snd] in Ht.
    unfold invoke.
    destruct (chatbot_invoke q (messages sid st1)) as [ts r|ts e|ts e]; cbn.
    + destruct (negb _ && _); cbn; rewrite <- Ht; other_key Hk.
    + rewrite <- Ht; other_key Hk.
    + rewrite <- Ht; other_key Hk.
  - unfold cache_hit, bind. other_key Hk.
Qed.

(** X6. With caching disabled a turn neither writes the semantic cache nor
    changes a popularity score, however the chain ends. *)
Theorem cache_disabled_untouched sid q st :
  MINIPILOT_CACHE_ENABLED = false ->
  cache (ask_question sid q st).2 = cache st
  /\ popularity (ask_question sid q st).2 = popularity st.
Proof.
  intros Hoff. unfold ask_question. rewrite Hoff.
  destruct (OrchestratorFacts.trim_history_frame sid st) as (Hc & Hp & _).
  unfold full_path, bind.
  destruct (trim_history sid st) as [[] st1]. cbn [snd] in Hc, Hp.
  unfold invoke.
  destruct (chatbot_invoke q (messages sid st1)) as [ts r|ts e|ts e]; cbn;
    rewrite ?Hoff, ?andb_false_r; cbn; auto.
Qed.


(** X8. An exception of the chain that is not an [OpenAIError] is not caught:
    it propagates after the history was trimmed and the call was made, with
    no message stored, nothing written to the cache, no warning logged, and
    nothing put on the queue by the turn itself. *)
Theorem other_exception_propagates sid q st tokens e :
  cache_miss q st ->
  chain_outcome sid q st = RaisesOther tokens e ->
  exists st',
    ask_question sid q st = (Propagate e, st')
    /\ stored sid st' = take (Z.to_nat MINIPILOT_HISTORY_LENGTH) (stored sid st)
    /\ queue st' = queue st ++ tokens
    /\ llm_calls st' = llm_calls st ++ [q]
    /\ cache st' = cache st
    /\ popularity st' = popularity st
    /\ warnings st' = warnings st.
Proof.
  intros Hmiss Hout.
  rewrite (OrchestratorFacts.ask_question_miss sid q st Hmiss).
  unfold chain_outcome in Hout.
  destruct (OrchestratorFacts.trim_history_frame sid st) as (Hc & Hp & Hq & Hl & Hw).
  pose proof (OrchestratorFacts.stored_trim sid st) as Hs.
  unfold full_path, bind.
  destruct (trim_history sid st) as [[] st1]. cbn [snd] in *.
  unfold invoke. rewrite Hout. cbn.
  eexists; split; [reflexivity|]. cbn.
  rewrite <- Hs, Hc, Hp, Hq, Hl, Hw. repeat split; reflexivity.
Qed.

(** Trimming changes the Redis store under the key of the session only. *)
Lemma trim_history_delete sid st :
  delete (history_key sid) (redis_lists (trim_history sid st).2) =
  delete (history_key sid) (redis_lists st).
Proof.
  unfold trim_history, bind, llen, rpop, ret. cbn.
  destruct (_ <? _); [|reflexivity].
  destruct (take _ _); cbn.
  - apply delete_delete_eq.
  - apply delete_insert_eq.
Qed.

(** X9. After a provider error the Redis store is exactly what
    [reset_history] of the session would have left: the list of the session
    is deleted and no other key is touched. *)
Theorem provider_error_like_reset sid q st tokens e :
  cache_miss q st ->
  chain_outcome sid q st = RaisesOpenAIError tokens e ->
  redis_lists (ask_question sid q st).2 = redis_lists (reset_history sid st).2.
Proof.
  intros Hmiss Hout.
  rewrite (OrchestratorFacts.ask_question_miss sid q st Hmiss).
  unfold chain_outcome in Hout.
  pose proof (trim_history_delete sid st) as Hd.
  unfold full_path, bind.
  destruct (trim_history sid st) as [[] st1]. cbn [snd] in *.
  unfold invoke. rewrite Hout. cbn. exact Hd.
Qed.

(** X10. [reset_history] empties the history of its session and nothing
    else: the histories of the other sessions, the cache, the popularity
    scores and the queue stay as they were; resetting twice is resetting
    once. *)
Theorem reset_history_only_this_session sid st :
  stored sid (reset_history sid st).2 = []
  /\ (forall sid', sid <> sid' ->
      stored sid' (reset_history sid st).2 = stored sid' st)
  /\ cache (reset_history sid st).2 = cache st
  /\ popularity (reset_history sid st).2 = popularity st
  /\ queue (reset_history sid st).2 = queue st
  /\ (reset_history sid (reset_history sid st).2).2 = (reset_history sid st).2.
Proof.
  repeat split.
  - apply OrchestratorFacts.stored_clear.
  - intros sid' Hk. unfold reset_history, clear, del. other_key Hk.
  - unfold reset_history, clear, del, set_redis_lists. cbn.
    rewrite delete_delete_eq. reflexivity.
Qed.

(** X11. The first successful full turn after [reset_history] gives the
    chain an empty history and leaves exactly the two messages of the turn in
    the store. *)
Theorem turn_after_reset sid q st tokens result :
  cache_miss q st ->
  chatbot_invoke q [] = Returns tokens result ->
  exists st',
    ask_question sid q (reset_history sid st).2 = (Return (Some result), st')
    /\ stored sid st' =
         [ ai_message (r_answer result)
             (collect_references (r_source_documents result));
           human_message (r_question result) ]
    /\ llm_calls st' = llm_calls st ++ [q].
Proof.
  intros Hmiss Hout.
  pose proof (OrchestratorFacts.stored_clear sid st) as Hempty.
  fold (reset_history sid st) in Hempty.
  assert (stored sid (trim_history sid (reset_history sid st).2).2 = []) as Htrim
    by (rewrite OrchestratorFacts.stored_trim, Hempty; apply take_nil).
  assert (chain_outcome sid q (reset_history sid st).2 = Returns tokens result) as Hout'.
  { unfold chain_outcome, messages. fold (stored sid (trim_history sid (reset_history sid st).2).2).
    rewrite Htrim. exact Hout. }
  rewrite (OrchestratorFacts.ask_question_miss sid q (reset_history sid st).2 Hmiss).
  destruct (OrchestratorFacts.full_path_returns sid q _ tokens result Hout')
    as (st' & -> & Hs & _ & Hl & _).
  exists st'. rewrite Hs, Htrim.
  split; [reflexivity|]. split; [reflexivity | exact Hl].
Qed.

(** X12. The cache-hit branch does not trim: when every question is answered
    from the cache, [n] turns add [2 n] messages to the history, call the
    chain never and write the cache never. *)
Theorem cache_hits_grow_history sid qs st :
  MINIPILOT_CACHE_ENABLED = true ->
  (forall c q, llmcache_check c q <> []) ->
  List.length (stored sid (turns sid qs st)) =
    (List.length (stored sid st) + 2 * List.length qs)%nat
  /\ llm_calls (turns sid qs st) = llm_calls st
  /\ cache (turns sid qs st) = cache st.
Proof.
  intros Hen Hhits. revert st.
  induction qs as [|q qs IH]; intros st; cbn [turns List.length].
  - repeat split; lia.
  - destruct (llmcache_check (cache st) q) as [|top others] eqn:Hhit;
      [exfalso; exact (Hhits _ _ Hhit)|].
    rewrite (OrchestratorFacts.ask_question_hit sid q st top others Hen Hhit).
    destruct (IH (cache_hit sid q top st).2) as (Hlen & Hl & Hc).
    rewrite Hlen, Hl, Hc.
    unfold cache_hit, bind, q_put, rate_cache_item, add_user_message,
      add_message, lpush, ret, stored, lrange_all. cbn.
    rewrite !lookup_insert_eq. cbn. repeat split; lia.
Qed.

(** One successful full turn leaves the [MINIPILOT_HISTORY_LENGTH] most
    recent messages, or all if there are fewer, and its own two. *)
Lemma full_turn_length sid q st tokens result :
  cache_miss q st ->
  chain_outcome sid q st = Returns tokens result ->
  List.length (stored sid (ask_question sid q st).2) =
    (2 + Nat.min (Z.to_nat MINIPILOT_HISTORY_LENGTH) (List.length (stored sid st)))%nat.
Proof.
  intros Hmiss Hout.
  rewrite (OrchestratorFacts.ask_question_miss sid q st Hmiss).
  destruct (OrchestratorFacts.full_path_returns sid q st tokens result Hout)
    as (st' & -> & Hs & _).
  cbn [snd]. rewrite Hs, OrchestratorFacts.stored_trim. cbn [List.length].
  rewrite length_take. reflexivity.
Qed.

(** X13. With caching disabled and a chain that always returns, the stored
    history never holds more than [MINIPILOT_HISTORY_LENGTH + 2] messages
    after a turn, however long it was before and however many turns
    follow. *)
Theorem full_turns_bound_history sid qs st :
  MINIPILOT_CACHE_ENABLED = false ->
  0 <= MINIPILOT_HISTORY_LENGTH ->
  (forall q h, exists tokens result, chatbot_invoke q h = Returns tokens result) ->
  qs <> [] ->
  Z.of_nat (List.length (stored sid (turns sid qs st))) <=
    MINIPILOT_HISTORY_LENGTH + 2.
Proof.
  intros Hoff Hl Hret. revert st.
  induction qs as [|q qs IH]; intros st Hne; [contradiction|].
  cbn [turns]. destruct qs as [|q' qs].
  - cbn [turns].
    destruct (Hret q (messages sid (trim_history sid st).2)) as (tokens & result & Hout).
    rewrite (full_turn_length sid q st tokens result); [lia | | exact Hout].
    unfold cache_miss. rewrite Hoff. reflexivity.
  - apply IH. discriminate.
Qed.

End Turn.

(** X5 on two sessions. *)
Lemma ask_question_other_session_witness :
  stored "s2"
    (ask_question (env := Examples.env) (svc := Examples.svc_miss)
       "s1" "Which film?" Examples.five_turns).2 =
  stored "s2" Examples.five_turns.
Proof.
  apply (ask_question_other_session (env := Examples.env) (svc := Examples.svc_miss)
           "s1" "s2" "Which film?" Examples.five_turns).
  discriminate.
Defined.

(** X6 with caching off. *)
Lemma cache_disabled_untouched_witness :
  cache (ask_question (env := Examples.env) (svc := Examples.svc_off)
           "s1" "Which film?" Examples.five_turns).2 = cache Examples.five_turns
  /\ popularity (ask_question (env := Examples.env) (svc := Examples.svc_off)
                   "s1" "Which film?" Examples.five_turns).2 =
     popularity Examples.five_turns.
Proof.
  apply (cache_disabled_untouched (env := Examples.env) (svc := Examples.svc_off)
           "s1" "Which film?" Examples.five_turns).
  reflexivity.
Defined.


(** X8 on a chain that fails with a connection error after one token. *)
Lemma other_exception_propagates_witness :
  exists st',
    ask_question (env := Examples.env) (svc := Examples.svc_broken)
      "s1" "Which film?" Examples.five_turns = (Propagate "ConnectionError", st')
    /\ stored "s1" st' = take (Z.to_nat 4) (stored "s1" Examples.five_turns)
    /\ queue st' = queue Examples.five_turns ++ [PyStr "Ava"]
    /\ llm_calls st' = llm_calls Examples.five_turns ++ ["Which film?"%string]
    /\ cache st' = cache Examples.five_turns
    /\ popularity st' = popularity Examples.five_turns
    /\ warnings st' = warnings Examples.five_turns.
Proof.
  apply (other_exception_propagates (env := Examples.env) (svc := Examples.svc_broken)
           "s1" "Which film?" Examples.five_turns [PyStr "Ava"] "ConnectionError").
  - reflexivity.
  - reflexivity.
Defined.

(** X9 on a provider that refuses the request. *)
Lemma provider_error_like_reset_witness :
  redis_lists (ask_question (env := Examples.env) (svc := Examples.svc_error)
                 "s1" "Which film?" Examples.five_turns).2 =
  redis_lists (reset_history "s1" Examples.five_turns).2.
Proof.
  apply (provider_error_like_reset (env := Examples.env) (svc := Examples.svc_error)
           "s1" "Which film?" Examples.five_turns [] "context_length_exceeded").
  - reflexivity.
  - reflexivity.
Defined.

(** X11 on a session of five turns that is reset. *)
Lemma turn_after_reset_witness :
  exists st',
    ask_question (env := Examples.env) (svc := Examples.svc_off)
      "s1" "Which film?" (reset_history "s1" Examples.five_turns).2 =
      (Return (Some Examples.a_result), st')
    /\ stored "s1" st' =
         [ ai_message "Avatar." (collect_references [Examples.doc1]);
           human_message "Which film?" ]
    /\ llm_calls st' = llm_calls Examples.five_turns ++ ["Which film?"%string].
Proof.
  apply (turn_after_reset (env := Examples.env) (svc := Examples.svc_off)
           "s1" "Which film?" Examples.five_turns Examples.streamed Examples.a_result).
  - reflexivity.
  - reflexivity.
Defined.

(** X12 on three questions answered from the cache. *)
Lemma cache_hits_grow_history_witness :
  List.length
    (stored "s1"
       (turns (env := Examples.env) (svc := Examples.svc_hit)
          "s1" ["a"; "b"; "c"]%string Examples.five_turns)) =
    (List.length (stored "s1" Examples.five_turns) + 2 * 3)%nat
  /\ llm_calls (turns (env := Examples.env) (svc := Examples.svc_hit)
                  "s1" ["a"; "b"; "c"]%string Examples.five_turns) =
     llm_calls Examples.five_turns
  /\ cache (turns (env := Examples.env) (svc := Examples.svc_hit)
              "s1" ["a"; "b"; "c"]%string Examples.five_turns) =
     cache Examples.five_turns.
Proof.
  apply (cache_hits_grow_history (env := Examples.env) (svc := Examples.svc_hit)
           "s1" ["a"; "b"; "c"]%string Examples.five_turns).
  - reflexivity.
  - intros c q. discriminate.
Defined.

(** X13 on three full turns of a session of five turns. *)
Lemma full_turns_bound_history_witness :
  Z.of_nat
    (List.length
       (stored "s1"
          (turns (env := Examples.env) (svc := Examples.svc_off)
             "s1" ["a"; "b"; "c"]%string Examples.five_turns))) <= 4 + 2.
Proof.
  apply (full_turns_bound_history (env := Examples.env) (svc := Examples.svc_off)
           "s1" ["a"; "b"; "c"]%string Examples.five_turns).
  - reflexivity.
  - cbn; lia.
  - intros q h. exists Examples.streamed, Examples.a_result. reflexivity.
  - discriminate.
Defined.

End SessionFacts.

(** ** The references of a turn *)

Module ReferenceFacts.
Import Py Orchestrator Session Text.

(** *** Texts *)

Lemma is_space_newline : is_space "010"%char = true.
Proof. reflexivity. Qed.

Lemma has_char_remove_char c s : has_char c (remove_char c s) = false.
Proof.
  induction s as [|d s IH]; cbn; [reflexivity|].
  destruct (Ascii.eqb c d) eqn:E; cbn; [exact IH|]. rewrite E. exact IH.
Qed.

Lemma lstrip_starts s : starts_with_space (lstrip s) = false.
Proof.
  induction s as [|c s IH]; cbn; [reflexivity|].
  destruct (is_space c) eqn:E; [exact IH|]. cbn. exact E.
Qed.

Lemma rstrip_starts s :
  starts_with_space s = false -> starts_with_space (rstrip s) = false.
Proof.
  destruct s as [|c s]; cbn; [reflexivity|]. intros E.
  destruct (rstrip s); [rewrite E|]; cbn; auto.
Qed.

Lemma rstrip_ends s : ends_with_space (rstrip s) = false.
Proof.
  induction s as [|c s IH]; cbn; [reflexivity|].
  destruct (rstrip s) as [|d r].
  - destruct (is_space c) eqn:E; cbn; auto.
  - exact IH.
Qed.

(** Without its newlines a text of newlines only is empty; such a text ends
    with a space. *)
Lemma remove_newlines_empty s :
  remove_char "010"%char s = EmptyString -> s <> EmptyString ->
  ends_with_space s = true.
Proof.
  induction s as [|c s IH]; [congruence|]. cbn [remove_char]. intros H _.
  destruct (Ascii.eqb_spec "010"%char c) as [<-|Hc]; [|discriminate].
  destruct s as [|d s]; [reflexivity|]. apply IH; [exact H | discriminate].
Qed.

Lemma remove_newlines_starts s :
  starts_with_space s = false ->
  starts_with_space (remove_char "010"%char s) = false.
Proof.
  destruct s as [|c s]; [reflexivity|].
  cbn [starts_with_space remove_char]. intros E.
  destruct (Ascii.eqb_spec "010"%char c) as [<-|Hc]; [|exact E].
  rewrite is_space_newline in E. discriminate.
Qed.

Lemma remove_newlines_ends s :
  ends_with_space s = false ->
  ends_with_space (remove_char "010"%char s) = false.
Proof.
  induction s as [|c s IH]; [reflexivity|]. intros E.
  assert (s <> EmptyString -> ends_with_space s = false) as Htail
    by (destruct s; [congruence | intros _; exact E]).
  cbn [remove_char].
  destruct (Ascii.eqb_spec "010"%char c) as [<-|Hc].
  - destruct s as [|d s]; [discriminate|]. apply IH, Htail. discriminate.
  - destruct (remove_char "010"%char s) as [|d r] eqn:Hr.
    + destruct s as [|d s]; [exact E|].
      rewrite (remove_newlines_empty _ Hr) in Htail by discriminate.
      discriminate Htail. discriminate.
    + change (ends_with_space (String d r) = false).
      apply IH, Htail. intros ->. discriminate.
Qed.

(** The title of a reference: no newline, no space at either end. *)
Lemma title_clean (doc : document) :
  has_char "010"%char (title (reference_of doc)) = false
  /\ starts_with_space (title (reference_of doc)) = false
  /\ ends_with_space (title (reference_of doc)) = false.
Proof.
  cbn. unfold strip. repeat split.
  - apply has_char_remove_char.
  - apply remove_newlines_starts, rstrip_starts, lstrip_starts.
  - apply remove_newlines_ends, rstrip_ends.
Qed.

(** *** Keys *)

Lemma after_last_none sep s :
  after_last sep s = None <-> contains sep s = false.
Proof.
  induction s as [|c s IH]; cbn [after_last contains]; [tauto|].
  destruct (after_last sep s) as [r|].
  - split; [discriminate|]. intros H. apply orb_false_elim in H as [_ H].
    apply IH in H. discriminate.
  - destruct IH as [IH _]. rewrite (IH eq_refl), orb_false_r.
    destruct (String.prefix sep (String c s)); split; congruence.
Qed.

Lemma contains_drop_chars sep n s :
  contains sep s = false -> contains sep (drop_chars n s) = false.
Proof.
  revert s. induction n as [|n IH]; intros [|c s] H; cbn [drop_chars]; auto.
  apply IH. cbn [contains] in H. apply orb_false_elim in H as [_ H]. exact H.
Qed.

(** What follows the last occurrence of a non-empty separator holds no
    occurrence of it. *)
Lemma after_last_clean sep s r :
  sep <> EmptyString -> after_last sep s = Some r -> contains sep r = false.
Proof.
  intros Hsep. induction s as [|c s IH]; cbn [after_last]; [discriminate|].
  destruct (after_last sep s) as [r'|] eqn:Hs.
  - intros [= <-]. apply IH. reflexivity.
  - destruct (String.prefix sep (String c s)); [|discriminate].
    intros [= <-]. destruct sep as [|a sep]; [congruence|].
    cbn [String.length drop_chars].
    apply contains_drop_chars, after_last_none, Hs.
Qed.

Lemma after_last_idx p k :
  contains "idx:" k = false -> after_last "idx:" (p +:+ "idx:" +:+ k) = Some k.
Proof.
  intros Hk. induction p as [|c p IH].
  - apply after_last_none in Hk.
    change ("" +:+ "idx:" +:+ k)
      with (String "i" (String "d" (String "x" (String ":" k)))).
    cbn [after_last]. rewrite Hk. cbn. destruct k; reflexivity.
  - change (String c p +:+ "idx:" +:+ k) with (String c (p +:+ "idx:" +:+ k)).
    cbn [after_last]. rewrite IH. reflexivity.
Qed.

(** X17. Taking the key out of a document id is the inverse of prefixing
    it: from [prefix + 'idx:' + key], the key of the reference is [key],
    provided ['idx:'] does not occur in [key]; an id without ['idx:'] is its
    own key. *)
Theorem reference_key_round_trip doc p k :
  contains "idx:" k = false ->
  (md_id doc = p +:+ "idx:" +:+ k -> reference_key doc = k)
  /\ (md_id doc = k -> reference_key doc = k).
Proof.
  intros Hk. unfold reference_key, split_last. split; intros ->.
  - rewrite (after_last_idx p k Hk). reflexivity.
  - apply after_last_none in Hk. rewrite Hk. reflexivity.
Qed.

(** X18. The key of a reference never contains ['idx:']. *)
Theorem reference_key_clean doc :
  contains "idx:" (reference_key doc) = false.
Proof.
  unfold reference_key, split_last.
  destruct (after_last "idx:" (md_id doc)) as [r|] eqn:H.
  - apply (after_last_clean "idx:" (md_id doc) r); [discriminate | exact H].
  - apply after_last_none, H.
Qed.

Section Collect.

Context {env : Bridge.Env} {svc : Services}.

Lemma add_reference_insert refs doc :
  add_reference refs doc = <[reference_key doc := reference_of doc]> refs.
Proof. reflexivity. Qed.

(** Every reference collected is the reference of one of the documents,
    under the key of that document. *)
Lemma collect_references_lookup docs k r :
  collect_references docs !! k = Some r ->
  exists doc, doc ∈ docs /\ reference_key doc = k /\ r = reference_of doc.
Proof.
  induction docs as [|d docs IH] using rev_ind.
  - unfold collect_references. cbn. rewrite lookup_empty. discriminate.
  - rewrite OrchestratorFacts.collect_references_snoc, add_reference_insert.
    intros H. apply lookup_insert_Some in H as [[<- <-]|[Hne H]].
    + exists d. split; [apply elem_of_app; right; apply list_elem_of_singleton|];
        auto.
    + destruct (IH H) as (doc & Hin & Hkey & Hr).
      exists doc. split; [apply elem_of_app; left; exact Hin|]; auto.
Qed.

(** X14. The references have exactly the keys of the source documents;
    documents with the same key share one entry, so there are at most as
    many references as documents. *)
Theorem collect_references_keys (docs : list document) :
  dom (collect_references docs) = list_to_set (reference_key <$> docs)
  /\ (size (collect_references docs) <= List.length docs)%nat.
Proof.
  induction docs as [|d docs [IHd IHs]] using rev_ind.
  - unfold collect_references. cbn. split; [apply dom_empty_L|].
    rewrite map_size_empty. lia.
  - rewrite OrchestratorFacts.collect_references_snoc, add_reference_insert. split.
    + rewrite dom_insert_L, fmap_app, list_to_set_app_L, IHd. cbn.
      rewrite (right_id_L ∅ (∪)). apply (comm_L (∪)).
    + rewrite map_size_insert, length_app. cbn.
      destruct (collect_references docs !! reference_key d); unfold id; lia.
Qed.

(** X15. When several documents have the same key, the last one wins: the
    entry of a key is the reference of the last document with that key. *)
Theorem collect_references_last_wins pre doc post :
  Forall (fun d => reference_key d <> reference_key doc) post ->
  collect_references (pre ++ doc :: post) !! reference_key doc =
    Some (reference_of doc).
Proof.
  induction post as [|d post IH] using rev_ind; intros Hpost.
  - rewrite OrchestratorFacts.collect_references_snoc, add_reference_insert.
    apply lookup_insert_eq.
  - apply Forall_app in Hpost as [Hpost Hd]. apply List.Forall_inv in Hd.
    replace (pre ++ doc :: post ++ [d]) with ((pre ++ doc :: post) ++ [d])
      by (rewrite <- app_assoc; reflexivity).
    rewrite OrchestratorFacts.collect_references_snoc, add_reference_insert.
    rewrite lookup_insert_ne by exact Hd. apply IH, Hpost.
Qed.

(** X16. The title of every reference of a turn is the [names] of a source
    document without newlines and without white space at either end. *)
Theorem reference_titles_clean docs k r :
  collect_references docs !! k = Some r ->
  has_char "010"%char (title r) = false
  /\ starts_with_space (title r) = false
  /\ ends_with_space (title r) = false.
Proof.
  intros H. destruct (collect_references_lookup docs k r H) as (doc & _ & _ & ->).
  apply title_clean.
Qed.

End Collect.

(** X17 on the id of the example document. *)
Lemma reference_key_round_trip_witness :
  (md_id Examples.doc1 = "minipilot_rag_movies_" +:+ "idx:" +:+ "42" ->
   reference_key Examples.doc1 = "42")
  /\ (md_id Examples.doc1 = "42" -> reference_key Examples.doc1 = "42").
Proof.
  apply (reference_key_round_trip Examples.doc1 "minipilot_rag_movies_" "42").
  reflexivity.
Defined.

(** X15 on two documents with the same key and one with another. *)
Lemma collect_references_last_wins_witness :
  collect_references
    ([Examples.doc1] ++ Examples.doc1_again :: [Examples.doc2])
    !! reference_key Examples.doc1_again =
  Some (reference_of Examples.doc1_again).
Proof.
  apply (collect_references_last_wins [Examples.doc1] Examples.doc1_again
           [Examples.doc2]).
  repeat constructor. vm_compute. discriminate.
Defined.

(** X16 on the reference of the example document. *)
Lemma reference_titles_clean_witness :
  has_char "010"%char (title (reference_of Examples.doc1)) = false
  /\ starts_with_space (title (reference_of Examples.doc1)) = false
  /\ ends_with_space (title (reference_of Examples.doc1)) = false.
Proof.
  apply (reference_titles_clean [Examples.doc1] "42" (reference_of Examples.doc1)).
  vm_compute. reflexivity.
Defined.

End ReferenceFacts.

(** ** More on the ingestion worker *)

Module RunsFacts.
Import Py Worker Runs.

Section Rows.

Context {ext : Externals}.

(** The loop with the embedding client at hand. *)
Lemma ingest_bound name em rs :
  (ingest name (Some em) rs).2 = Completed
  /\ texts_split (ingest name (Some em) rs).1 = row_str <$> rs
  /\ texts_written (ingest name (Some em) rs).1 =
       (fun row => split_text (row_str row)) <$>
         filter (fun row => gives_chunks row = true) rs
  /\ Forall (writes_to em name) (ingest name (Some em) rs).1.
Proof.
  induction rs as [|row rs (IHe & IHs & IHw & IHf)]; cbn [ingest].
  - repeat split. constructor.
  - change (0 <? List.length (split_text (row_str row)))%nat with (gives_chunks row).
    rewrite filter_cons.
    destruct (gives_chunks row) eqn:Hrow;
      destruct (ingest name (Some em) rs) as [effects e]; cbn in *; subst.
    + rewrite IHs, IHw. repeat split.
      constructor; [exact I|]. constructor; [|exact IHf].
      cbn. repeat split. intros Hnil. unfold gives_chunks in Hrow.
      rewrite Hnil in Hrow. discriminate.
    + rewrite IHs, IHw. repeat split. constructor; [exact I | exact IHf].
Qed.

(** The loop without the client: it stops at the first row that gives
    chunks. *)
Lemma ingest_unbound name rs :
  ((ingest name None rs).2 = Completed <->
   Forall (fun row => gives_chunks row = false) rs)
  /\ ((ingest name None rs).2 = Completed \/
      (ingest name None rs).2 = Raised (UnboundLocalError "embedding_model"))
  /\ texts_written (ingest name None rs).1 = [].
Proof.
  induction rs as [|row rs (IHc & IHe & IHw)]; cbn [ingest].
  - repeat split; auto.
  - change (0 <? List.length (split_text (row_str row)))%nat with (gives_chunks row).
    destruct (gives_chunks row) eqn:Hrow.
    + cbn [fst snd]. repeat split; auto.
      * discriminate.
      * intros H. apply List.Forall_inv in H. congruence.
    + destruct (ingest name None rs) as [effects e]; cbn [fst snd] in *.
      repeat split; auto.
      * intros H. constructor; [exact Hrow | apply IHc, H].
      * intros H. apply IHc. apply List.Forall_inv_tail in H. exact H.
Qed.

Lemma ingest_no_warning name em rs :
  filter (fun e => is_warning e = false) (ingest name em rs).1 =
  (ingest name em rs).1.
Proof.
  induction rs as [|row rs IH]; cbn [ingest]; [reflexivity|].
  destruct (0 <? List.length (split_text (row_str row)))%nat;
    [destruct em as [em|]; [|reflexivity]|];
    destruct (ingest name _ rs) as [effects e]; cbn [fst snd] in *;
    rewrite !filter_cons; cbn; rewrite IH; reflexivity.
Qed.


(** X20. Whatever a run meets, each of its writes carries at least one text,
    the [text-embedding-ada-002] client, and the one index name made from
    the file name and the start time of the run. *)
Theorem writes_go_to_the_run_index filename r :
  Forall (writes_to (OpenAIEmbeddings "text-embedding-ada-002")
            (index_name filename (now r)))
    (csv_loader_task filename r).1.
Proof.
  unfold csv_loader_task.
  destruct (embeddings_error r) as [e|].
  - pose proof (ingest_unbound (index_name filename (now r)) (rows r))
      as (_ & _ & Hw).
    destruct (ingest _ None (rows r)) as [effects e']. cbn in *.
    assert (Forall (writes_to (OpenAIEmbeddings "text-embedding-ada-002")
                      (index_name filename (now r))) effects) as Hf.
    { clear -Hw. induction effects as [|[| | |] effects IH]; cbn in Hw;
        try discriminate; constructor; try exact I; apply IH, Hw. }
    destruct (alias_exists r); repeat (constructor; [exact I|]); exact Hf.
  - pose proof (ingest_bound (index_name filename (now r))
                  (OpenAIEmbeddings "text-embedding-ada-002") (rows r))
      as (_ & _ & _ & Hf).
    destruct (ingest _ _ (rows r)) as [effects e']. cbn in *.
    destruct (alias_exists r); repeat (constructor; [exact I|]); exact Hf.
Qed.

(** X21. A missing alias is not fatal: the run logs the warning and then does
    what the run with the alias present does, with the same end. *)
Theorem missing_alias_not_fatal filename r :
  LoggedWarning
    "No alias exists for semantic search. Associate the alias to the desired index"
    ∈ (csv_loader_task filename (with_alias false r)).1
  /\ filter (fun e => is_warning e = false)
       (csv_loader_task filename (with_alias false r)).1 =
     (csv_loader_task filename (with_alias true r)).1
  /\ (csv_loader_task filename (with_alias false r)).2 =
     (csv_loader_task filename (with_alias true r)).2.
Proof.
  unfold csv_loader_task, with_alias.
  cbn [now embeddings_error alias_exists rows].
  destruct (embeddings_error r) as [e|].
  - pose proof (ingest_no_warning (index_name filename (now r)) None (rows r)) as Hn.
    destruct (ingest _ None (rows r)) as [effects e']. cbn [fst snd app] in *.
    rewrite filter_cons_True by reflexivity.
    rewrite filter_cons_False by (intros H; discriminate H).
    rewrite Hn. repeat split. apply list_elem_of_further, list_elem_of_here.
  - pose proof (ingest_no_warning (index_name filename (now r))
                  (Some (OpenAIEmbeddings "text-embedding-ada-002")) (rows r)) as Hn.
    destruct (ingest _ _ (rows r)) as [effects e']. cbn [fst snd app] in *.
    rewrite filter_cons_False by (intros H; discriminate H).
    rewrite Hn. repeat split. apply list_elem_of_here.
Qed.


End Rows.



(** X4 on a session of five turns, a cache that answers one hit and an
    empty queue. *)
Lemma cache_hit_streams_response_witness :
  exists st' f' w',
    (Orchestrator.ask (env := Examples.env) (svc := Examples.svc_hit)
       Examples.self "Which film?").2 Examples.five_turns =
      (Orchestrator.Return None, st')
    /\ Bridge.drain (env := Examples.env) 2
         (Orchestrator.ask (env := Examples.env) (svc := Examples.svc_hit)
            Examples.self "Which film?").1 Bridge.streamer
         (Bridge.incoming (Orchestrator.queue st') [] 0 []) =
       Some (["Avatar."%string], Bridge.Exhausted, f', w')
    /\ Bridge.logs_answer
         (Orchestrator.ask (env := Examples.env) (svc := Examples.svc_hit)
            Examples.self "Which film?").1
         "Which film?" "Avatar." [] (Bridge.logged w').
Proof.
  apply (OrchestratorFacts.cache_hit_streams_response
           (env := Examples.env) (svc := Examples.svc_hit)
           Examples.self "Which film?" Examples.five_turns Examples.a_hit []
           0%nat [] 2%nat).
  - reflexivity.
  - reflexivity.
  - reflexivity.
  - discriminate.
  - cbn; lia.
Defined.

End RunsFacts.
